(** * Release state derivation and version-extension calculation

    A shallow embedding of [release_automation/scripts/state_manager.py]
    and [release_automation/scripts/version_calculator.py], together with
    the properties the specification states about them.

    Python strings are modelled by [string]; a character stands for a code
    point below 256, a range in which the regular-expression class [\d]
    is exactly [0-9] and [str.lower] changes the letters [A-Z] and no
    character into one of [a-z] otherwise.  Integers are unbounded ([N],
    [Z]); the limit CPython can be configured to put on the number of
    digits [int] and [str] convert is not modelled.  The values
    produced by [yaml.safe_load] are modelled by [pyval]; floats and
    timestamps are left out, since for every operation used here (truth
    value, [.get], [.lower], iteration, [==] with a string) they behave
    like an integer; binary scalars, which have a [.lower] of their own,
    are outside the model.  A call of the parser returns a value, raises
    a [yaml.YAMLError] or raises another exception ([loaded]).

    A method is a program over the calls it makes on its client and over
    the attributes of the object it is called on, so that a method that
    kept something from one call to the next can be written, and told
    from one that does not ([stateless]). *)

From Stdlib Require Import String Ascii List Bool ZArith NArith Lia.
From Stdlib Require Import DecimalString DecimalPos DecimalN.
Import ListNotations.
Local Open Scope string_scope.
Set Warnings "-register-all".

(** ** Strings *)

Module Str.

Definition is_digit (c : ascii) : bool :=
  (48 <=? N_of_ascii c)%N && (N_of_ascii c <=? 57)%N.

Definition is_lower (c : ascii) : bool :=
  (97 <=? N_of_ascii c)%N && (N_of_ascii c <=? 122)%N.

Definition is_upper (c : ascii) : bool :=
  (65 <=? N_of_ascii c)%N && (N_of_ascii c <=? 90)%N.

Fixpoint all (p : ascii -> bool) (s : string) : bool :=
  match s with
  | EmptyString => true
  | String c s' => p c && all p s'
  end.

(** Longest prefix whose characters satisfy [p], and the rest: what a
    greedy [c+] or [c*] consumes when the next token of the pattern cannot
    start with a character of the class. *)
Fixpoint span (p : ascii -> bool) (s : string) : string * string :=
  match s with
  | EmptyString => (EmptyString, EmptyString)
  | String c s' =>
      if p c then let (a, b) := span p s' in (String c a, b)
      else (EmptyString, s)
  end.

Definition nonempty (s : string) : bool :=
  match s with EmptyString => false | _ => true end.

(** [c+] : at least one character of the class. *)
Definition many1 (p : ascii -> bool) (s : string) : option (string * string) :=
  let (a, b) := span p s in
  if nonempty a then Some (a, b) else None.

(** A literal character of the pattern. *)
Definition lit (c : ascii) (s : string) : option string :=
  match s with
  | String c' s' => if Ascii.eqb c' c then Some s' else None
  | EmptyString => None
  end.

(** [$] without [re.MULTILINE]: the end of the string, or just before a
    newline that ends the string. *)
Definition at_end (s : string) : bool :=
  match s with
  | EmptyString => true
  | String c EmptyString => Ascii.eqb c "010"
  | _ => false
  end.

(** [int(s)] for a string of decimal digits. *)
Definition digit_val (c : ascii) : N := (N_of_ascii c - 48)%N.

Fixpoint int_acc (acc : N) (s : string) : N :=
  match s with
  | EmptyString => acc
  | String c s' => int_acc (acc * 10 + digit_val c)%N s'
  end.

Definition int (s : string) : N := int_acc 0 s.

(** [str(n)] for a natural number. *)
Definition of_N (n : N) : string := NilEmpty.string_of_uint (N.to_uint n).

(** [str.lower()], on the ASCII letters. *)
Definition lower_char (c : ascii) : ascii :=
  if is_upper c then ascii_of_N (N_of_ascii c + 32) else c.

Fixpoint lower (s : string) : string :=
  match s with
  | EmptyString => EmptyString
  | String c s' => String (lower_char c) (lower s')
  end.

(** [sub in s] *)
Fixpoint contains (sub s : string) : bool :=
  String.prefix sub s
  || match s with
     | EmptyString => false
     | String _ s' => contains sub s'
     end.

(** [s.replace(old, new)] for a non-empty [old]: occurrences are replaced
    from left to right and do not overlap; [skip] counts the characters of
    an occurrence that are still to be dropped. *)
Fixpoint replace_from (skip : nat) (old new s : string) : string :=
  match s with
  | EmptyString => EmptyString
  | String c s' =>
      match skip with
      | S k => replace_from k old new s'
      | O =>
          if String.prefix old s
          then new ++ replace_from (String.length old - 1) old new s'
          else String c (replace_from O old new s')
      end
  end.

Definition replace (old new s : string) : string := replace_from O old new s.

(** [s.split(sep)[0]] for a one-character separator. *)
Fixpoint split_head (sep : ascii) (s : string) : string :=
  match s with
  | EmptyString => EmptyString
  | String c s' => if Ascii.eqb c sep then EmptyString else String c (split_head sep s')
  end.

Definition has_char (c : ascii) (s : string) : bool :=
  contains (String c EmptyString) s.

End Str.

(** ** version_calculator.py: URL versions *)

(** Groups of [^(\d+)\.(\d+)\.(\d+)(?:-([a-z]+)\.(\d+))?$]: major, minor,
    patch, and the status and extension when the optional part matched. *)
Definition url_pattern_match (s : string)
  : option (string * string * string * option (string * string)) :=
  match Str.many1 Str.is_digit s with
  | None => None
  | Some (major, r1) =>
  match Str.lit "." r1 with
  | None => None
  | Some r2 =>
  match Str.many1 Str.is_digit r2 with
  | None => None
  | Some (minor, r3) =>
  match Str.lit "." r3 with
  | None => None
  | Some r4 =>
  match Str.many1 Str.is_digit r4 with
  | None => None
  | Some (patch, r5) =>
      if Str.at_end r5 then Some (major, minor, patch, None)
      else
        match Str.lit "-" r5 with
        | None => None
        | Some r6 =>
        match Str.many1 Str.is_lower r6 with
        | None => None
        | Some (status, r7) =>
        match Str.lit "." r7 with
        | None => None
        | Some r8 =>
        match Str.many1 Str.is_digit r8 with
        | None => None
        | Some (extension, r9) =>
            if Str.at_end r9
            then Some (major, minor, patch, Some (status, extension))
            else None
        end end end end
  end end end end end.

Definition calculate_url_version (api_version : string) : string :=
  if String.eqb api_version "wip" then "vwip"
  else
    match url_pattern_match api_version with
    | None => "vwip"
    | Some (major, minor, _patch, suffix) =>
        let major := Str.int major in
        let base :=
          if N.eqb major 0 then "v0." ++ minor
          else "v" ++ Str.of_N major in
        match suffix with
        | Some (status, extension) =>
            (* both groups are non-empty when they matched *)
            if Str.nonempty status && Str.nonempty extension
            then base ++ status ++ extension
            else base
        | None => base
        end
    end.

(** Groups of [VERSION_PATTERN], [^(\d+\.\d+\.\d+)-([a-z]+)\.(\d+)$]:
    base version, status, extension. *)
Definition VERSION_PATTERN_match (s : string)
  : option (string * string * string) :=
  match Str.many1 Str.is_digit s with
  | None => None
  | Some (major, r1) =>
  match Str.lit "." r1 with
  | None => None
  | Some r2 =>
  match Str.many1 Str.is_digit r2 with
  | None => None
  | Some (minor, r3) =>
  match Str.lit "." r3 with
  | None => None
  | Some r4 =>
  match Str.many1 Str.is_digit r4 with
  | None => None
  | Some (patch, r5) =>
  match Str.lit "-" r5 with
  | None => None
  | Some r6 =>
  match Str.many1 Str.is_lower r6 with
  | None => None
  | Some (status, r7) =>
  match Str.lit "." r7 with
  | None => None
  | Some r8 =>
  match Str.many1 Str.is_digit r8 with
  | None => None
  | Some (extension, r9) =>
      if Str.at_end r9
      then Some (major ++ "." ++ minor ++ "." ++ patch, status, extension)
      else None
  end end end end end end end end end.

Definition _parse_extension (version target_version target_status : string)
  : option N :=
  match VERSION_PATTERN_match version with
  | None => None
  | Some (base_version, status, extension) =>
      if negb (String.eqb status target_status) then None
      else
        let existing_url := calculate_url_version (base_version ++ "-" ++ status ++ ".1") in
        let target_url := calculate_url_version (target_version ++ "-" ++ status ++ ".1") in
        if String.eqb existing_url target_url
        then Some (Str.int extension)
        else None
  end.

(** ** Values read from YAML documents *)

(** What [yaml.safe_load] returns.  A mapping is an association list in
    which a key's first binding is its value; only string keys are kept,
    as no other key is ever looked up. *)
Inductive pyval : Type :=
| PNone
| PBool (b : bool)
| PInt (z : Z)
| PStr (s : string)
| PList (l : list pyval)
| PDict (d : list (string * pyval)).

(** The exceptions the modelled code can raise or let through. *)
Inductive exn : Type :=
| AttributeError
| TypeError
| KeyError
| ValueError
| IndexError
| RecursionError.

(** Truth value of a Python object, as tested by [if], [not], [and], [or]. *)
Definition truthy (v : pyval) : bool :=
  match v with
  | PNone => false
  | PBool b => b
  | PInt z => negb (Z.eqb z 0)
  | PStr s => Str.nonempty s
  | PList l => match l with [] => false | _ => true end
  | PDict d => match d with [] => false | _ => true end
  end.

(** [a or b] *)
Definition py_or (a b : pyval) : pyval := if truthy a then a else b.

(** [v == s] for a string [s]. *)
Definition eq_str (v : pyval) (s : string) : bool :=
  match v with
  | PStr s' => String.eqb s' s
  | _ => false
  end.

Definition is_dict (v : pyval) : bool :=
  match v with PDict _ => true | _ => false end.

Fixpoint assoc (key : string) (d : list (string * pyval)) : option pyval :=
  match d with
  | [] => None
  | (k, v) :: d' => if String.eqb k key then Some v else assoc key d'
  end.

(** What a call of [yaml.safe_load] does: it returns the value of the
    document, or raises a [yaml.YAMLError], of which [msg] is the text, or
    raises another exception, as the constructor of a timestamp raises
    [ValueError] on a date such as [2026-02-30]. *)
Inductive loaded : Type :=
| Loaded (v : pyval)
| YAMLError (msg : string)
| OtherError (e : exn).

(** The Python run time the code relies on and this development leaves
    abstract: the YAML parser, time stamps, and [str()] of a value that is
    not a string, as an f-string applies it. *)
Class PyRuntime : Type := {
  datetime : Type;
  safe_load : string -> loaded;
  fromisoformat : string -> option datetime;
  format_other : pyval -> string
}.

Definition format_value `{PyRuntime} (v : pyval) : string :=
  match v with
  | PStr s => s
  | _ => format_other v
  end.

(** ** github_client.py: the repository queries *)

Record Branch : Type := { branch_name : string; sha : string }.

Record Release : Type := {
  tag_name : string;
  name : string;
  draft : bool;
  prerelease : bool;
  html_url : string
}.

(** An entry of [search_issues]: [title] and [body] are [None] where the
    issue has a null title or body. *)
Record Issue : Type := {
  number : Z;
  title : option string;
  body : option string
}.

(** The calls the two modules make on their [GitHubClient], on the clock
    and on standard output, each with the type of its answer; and the two
    things a method can do to keep something from one call to the next:
    read an attribute of the object it is called on ([None] where the
    object has none of that name) and assign one.  [self.gh], which
    [__init__] assigns and the methods read, is the client the first
    calls go to; the methods modelled below touch no other attribute. *)
Inductive Query `{PyRuntime} : Type -> Type :=
| tag_exists (tag : pyval) : Query bool
| list_branches (pattern : string) : Query (list Branch)
| draft_release_exists (tag : pyval) : Query bool
| get_file_content (path : string) (ref : string) : Query (option string)
| get_releases (include_drafts : bool) : Query (list Release)
| get_branch_creation_time (branch : string) : Query (option string)
| find_pr_for_branch (head_branch : string) : Query (option Z)
| search_issues (labels : list string) (state : string) : Query (list Issue)
| datetime_now : Query datetime
| print (line : string) : Query unit
| get_attribute (name : string) : Query (option pyval)
| set_attribute (name : string) (value : pyval) : Query unit.

(** ** Programs: queries, results and exceptions *)

Inductive Prog `{PyRuntime} (R : Type) : Type :=
| Ret (r : R)
| Raise (e : exn)
| Vis {A : Type} (q : Query A) (k : A -> Prog R).

Arguments Ret {_ R} r.
Arguments Raise {_ R} e.
Arguments Vis {_ R A} q k.

Fixpoint bind `{PyRuntime} {A B : Type} (p : Prog A) (f : A -> Prog B) : Prog B :=
  match p with
  | Ret a => f a
  | Raise e => Raise e
  | Vis q k => Vis q (fun x => bind (k x) f)
  end.

Definition ask `{PyRuntime} {A : Type} (q : Query A) : Prog A := Vis q Ret.

Declare Scope prog_scope.
Delimit Scope prog_scope with prog.
Notation "x <- p ;; k" := (bind p (fun x => k))
  (at level 61, p at next level, right associativity) : prog_scope.
Notation "p ;;; k" := (bind p (fun _ => k))
  (at level 61, right associativity) : prog_scope.
Local Open Scope prog_scope.

Inductive outcome (R : Type) : Type :=
| Returned (r : R)
| Raised (e : exn).

Arguments Returned {R} r.
Arguments Raised {R} e.

(** A repository observed at one instant answers every query. *)
Definition Repository `{PyRuntime} : Type := forall A : Type, Query A -> A.

Fixpoint run `{PyRuntime} {R : Type} (gh : Repository) (p : Prog R) : outcome R :=
  match p with
  | Ret r => Returned r
  | Raise e => Raised e
  | Vis q k => run gh (k (gh _ q))
  end.

(** A repository that may change between two queries: a world [W] and a
    handler that answers a query in a world and yields the next world. *)
Definition Handler `{PyRuntime} (W : Type) : Type :=
  forall A : Type, Query A -> W -> A * W.

Fixpoint exec `{PyRuntime} {W R : Type} (h : Handler W) (p : Prog R) (w : W)
  : outcome R * W :=
  match p with
  | Ret r => (Returned r, w)
  | Raise e => (Raised e, w)
  | Vis q k => let (a, w') := h _ q w in exec h (k a) w'
  end.

(** A repository that stays as it is, as a handler. *)
Definition still `{PyRuntime} {W : Type} (gh : Repository) : Handler W :=
  fun A q w => (gh A q, w).

(** The two executions of a program answer every query they make alike. *)
Fixpoint same_answers `{PyRuntime} {W R : Type} (h : Handler W) (p : Prog R)
  (w1 w2 : W) : Prop :=
  match p with
  | Ret _ | Raise _ => True
  | Vis q k =>
      fst (h _ q w1) = fst (h _ q w2) /\
      same_answers h (k (fst (h _ q w1))) (snd (h _ q w1)) (snd (h _ q w2))
  end.

(** The attributes of the object a method is called on, the client
    apart: the latest assignment to a name comes first. *)
Definition Attributes : Type := list (string * pyval).

(** An object with attributes over a client: reading and assigning go to
    the attributes, every other query goes to the client. *)
Definition with_attributes `{PyRuntime} {W : Type} (h : Handler W)
  : Handler (Attributes * W) :=
  fun A q s =>
    match q in Query A return (W -> A * W) -> A * (Attributes * W) with
    | get_attribute name => fun _ => (assoc name (fst s), s)
    | set_attribute name value => fun _ => (tt, ((name, value) :: fst s, snd s))
    | _ => fun client => let (a, w') := client (snd s) in (a, (fst s, w'))
    end (h A q).

Definition is_attribute `{PyRuntime} {A : Type} (q : Query A) : bool :=
  match q with
  | get_attribute _ | set_attribute _ _ => true
  | _ => false
  end.

(** The program neither reads nor assigns an attribute, whatever the
    answers to its queries are. *)
Fixpoint stateless `{PyRuntime} {R : Type} (p : Prog R) : Prop :=
  match p with
  | Ret _ | Raise _ => True
  | Vis q k => is_attribute q = false /\ forall a, stateless (k a)
  end.

(** ** Dynamic operations on values *)

(** [v.get(key, default)]: only a mapping has [get]. *)
Definition py_get `{PyRuntime} (v : pyval) (key : string) (default : pyval)
  : Prog pyval :=
  match v with
  | PDict d => Ret (match assoc key d with Some x => x | None => default end)
  | _ => Raise AttributeError
  end.

(** [v[key]] *)
Definition py_getitem `{PyRuntime} (v : pyval) (key : string) : Prog pyval :=
  match v with
  | PDict d => match assoc key d with Some x => Ret x | None => Raise KeyError end
  | _ => Raise TypeError
  end.

(** [v.lower()]: only a string has [lower]. *)
Definition py_lower `{PyRuntime} (v : pyval) : Prog string :=
  match v with
  | PStr s => Ret (Str.lower s)
  | _ => Raise AttributeError
  end.

Fixpoint chars (s : string) : list pyval :=
  match s with
  | EmptyString => []
  | String c s' => PStr (String c EmptyString) :: chars s'
  end.

(** The elements a [for] loop over [v] visits. *)
Definition py_iter `{PyRuntime} (v : pyval) : Prog (list pyval) :=
  match v with
  | PList l => Ret l
  | PDict d => Ret (map (fun kv => PStr (fst kv)) d)
  | PStr s => Ret (chars s)
  | _ => Raise TypeError
  end.

(** ** version_calculator.py: VersionCalculator *)

Module VersionCalculator.

Definition _read_release_metadata `{PyRuntime} (tag : string) : Prog pyval :=
  content <- ask (get_file_content "release-metadata.yaml" tag) ;;
  match content with
  | None => Ret PNone
  | Some content =>
      if negb (Str.nonempty content) then Ret PNone
      else
        match safe_load content with
        | Loaded v => Ret v
        | YAMLError e =>
            ask (print ("Warning: Failed to parse release-metadata.yaml from "
                        ++ tag ++ ": " ++ e)) ;;;
            Ret PNone
        | OtherError e => Raise e
        end
  end.

(** [self._parse_extension(api_version, ...)] on a value read from the
    metadata: [re.Pattern.match] accepts only a string. *)
Definition parse_extension_of `{PyRuntime} (api_version : pyval)
  (target_version target_status : string) : Prog (option N) :=
  match api_version with
  | PStr version => Ret (_parse_extension version target_version target_status)
  | _ => Raise TypeError
  end.

(** The inner loop of [find_existing_extensions], over the APIs of one
    release; [extensions] is the list built so far. *)
Fixpoint scan_apis `{PyRuntime} (api_name target_version target_status : string)
  (apis : list pyval) (extensions : list N) : Prog (list N) :=
  match apis with
  | [] => Ret extensions
  | api :: apis' =>
      n <- py_get api "api_name" PNone ;;
      if negb (eq_str n api_name)
      then scan_apis api_name target_version target_status apis' extensions
      else
        api_version <- py_get api "api_version" (PStr "") ;;
        ext <- parse_extension_of api_version target_version target_status ;;
        match ext with
        | Some e =>
            scan_apis api_name target_version target_status apis' (extensions ++ [e])
        | None =>
            scan_apis api_name target_version target_status apis' extensions
        end
  end.

(** The outer loop, over the releases. *)
Fixpoint scan_releases `{PyRuntime} (api_name target_version target_status : string)
  (releases : list Release) (extensions : list N) : Prog (list N) :=
  match releases with
  | [] => Ret extensions
  | release :: releases' =>
      metadata <- _read_release_metadata (tag_name release) ;;
      if negb (truthy metadata)
      then scan_releases api_name target_version target_status releases' extensions
      else
        apis <- py_get metadata "apis" (PList []) ;;
        apis <- py_iter apis ;;
        extensions <- scan_apis api_name target_version target_status apis extensions ;;
        scan_releases api_name target_version target_status releases' extensions
  end.

Definition find_existing_extensions `{PyRuntime}
  (api_name target_version target_status : string) : Prog (list N) :=
  releases <- ask (get_releases false) ;;
  scan_releases api_name target_version target_status releases [].

(** [max(existing)] of a non-empty list. *)
Definition list_max (l : list N) : N := fold_right N.max 0%N l.

Definition calculate_version `{PyRuntime}
  (api_name target_version target_status : string) : Prog string :=
  if String.eqb target_status "public" then Ret target_version
  else
    existing <- find_existing_extensions api_name target_version target_status ;;
    let next_ext :=
      match existing with
      | _ :: _ => (list_max existing + 1)%N
      | [] => 1%N
      end in
    Ret (target_version ++ "-" ++ target_status ++ "." ++ Str.of_N next_ext).

End VersionCalculator.

(** ** config.py *)

Module config.
Definition RELEASE_PLAN_FILE : string := "release-plan.yaml".
Definition RELEASE_METADATA_FILE : string := "release-metadata.yaml".
Definition SNAPSHOT_BRANCH_PREFIX : string := "release-snapshot/".
Definition RELEASE_REVIEW_BRANCH_PREFIX : string := "release-review/".
End config.

(** ** state_manager.py: data *)

Definition WORKFLOW_MARKER : string := "<!-- release-automation:workflow-owned -->".
Definition RELEASE_ISSUE_LABEL : string := "release-issue".

Inductive ReleaseState : Type :=
| PLANNED
| SNAPSHOT_ACTIVE
| DRAFT_READY
| PUBLISHED
| NOT_PLANNED.

(** The fields filled from the release metadata hold whatever value the
    document has there. *)
Module SnapshotInfo.
Record t `{PyRuntime} : Type := make {
  snapshot_id : string;
  snapshot_branch : string;
  release_review_branch : string;
  src_commit_sha : pyval;
  created_at : datetime;
  release_pr_number : option Z;
  release_type : pyval;
  apis : pyval;
  commonalities_release : pyval;
  identity_consent_management_release : pyval
}.
Arguments make {_} _ _ _ _ _ _ _ _ _ _.
End SnapshotInfo.

Record ConfigurationError : Type := {
  error_type : string;
  message : string;
  file_path : string;
  field_path : option string
}.

(** [release_tag] and [release_type] come from the documents and hold
    whatever value is there; [PNone] is Python's [None]. *)
Module ReleaseInfoResult.
Record t : Type := make {
  success : bool;
  release_tag : pyval;
  state : option ReleaseState;
  snapshot_branch : option string;
  source : option string;
  config_error : option ConfigurationError;
  release_issue_number : option Z;
  release_type : pyval
}.
End ReleaseInfoResult.

(** The objects a local variable of [get_current_release_info] can be
    bound to, and the frame [locals()] returns. *)
Inductive pyobj `{PyRuntime} : Type :=
| OSelf
| OVal (v : pyval)
| OStr (s : string)
| OBranches (l : list Branch)
| OState (s : ReleaseState)
| OError (e : option ConfigurationError)
| OSnapshot (s : option SnapshotInfo.t).

Definition frame `{PyRuntime} : Type := list (string * pyobj).

Fixpoint frame_lookup `{PyRuntime} (x : string) (f : frame) : option pyobj :=
  match f with
  | [] => None
  | (y, o) :: f' => if String.eqb y x then Some o else frame_lookup x f'
  end.

Definition obj_truthy `{PyRuntime} (o : pyobj) : bool :=
  match o with
  | OSelf => true
  | OVal v => truthy v
  | OStr s => Str.nonempty s
  | OBranches l => match l with [] => false | _ => true end
  | OState _ => true
  | OError e => match e with Some _ => true | None => false end
  | OSnapshot s => match s with Some _ => true | None => false end
  end.

(** [o.release_type]: of the objects above only a [SnapshotInfo] has the
    attribute. *)
Definition obj_release_type `{PyRuntime} (o : pyobj) : Prog pyval :=
  match o with
  | OSnapshot (Some s) => Ret (SnapshotInfo.release_type s)
  | _ => Raise AttributeError
  end.

(** ** state_manager.py: ReleaseStateManager *)

Module ReleaseStateManager.

Definition _read_release_plan `{PyRuntime} (ref : string) : Prog pyval :=
  content <- ask (get_file_content config.RELEASE_PLAN_FILE ref) ;;
  match content with
  | None => Ret PNone
  | Some content =>
      if negb (Str.nonempty content) then Ret PNone
      else
        match safe_load content with
        | Loaded v => Ret v
        | YAMLError e =>
            ask (print ("Warning: Failed to parse release-plan.yaml from "
                        ++ ref ++ ": " ++ e)) ;;;
            Ret PNone
        | OtherError e => Raise e
        end
  end.

Definition _read_release_metadata `{PyRuntime} (ref : string) : Prog pyval :=
  content <- ask (get_file_content config.RELEASE_METADATA_FILE ref) ;;
  match content with
  | None => Ret PNone
  | Some content =>
      if negb (Str.nonempty content) then Ret PNone
      else
        match safe_load content with
        | Loaded v => Ret v
        | YAMLError e =>
            ask (print ("Warning: Failed to parse " ++ config.RELEASE_METADATA_FILE
                        ++ " from " ++ ref ++ ": " ++ e)) ;;;
            Ret PNone
        | OtherError e => Raise e
        end
  end.

(** [release_type and release_type.lower() != "none"] *)
Definition type_is_set `{PyRuntime} (release_type : pyval) : Prog bool :=
  if truthy release_type
  then l <- py_lower release_type ;; Ret (negb (String.eqb l "none"))
  else Ret false.

(** [release_type and release_type.lower() == "none"] *)
Definition type_is_none `{PyRuntime} (release_type : pyval) : Prog bool :=
  if truthy release_type
  then l <- py_lower release_type ;; Ret (String.eqb l "none")
  else Ret false.

Definition derive_state `{PyRuntime} (release_tag : string) : Prog ReleaseState :=
  (* Step 1: Check if tag exists *)
  published <- ask (tag_exists (PStr release_tag)) ;;
  if published then Ret PUBLISHED
  else
    (* Step 2: Check for snapshot branch *)
    snapshot_branches <-
      ask (list_branches (config.SNAPSHOT_BRANCH_PREFIX ++ release_tag ++ "-*")) ;;
    match snapshot_branches with
    | _ :: _ =>
        (* Step 3: Check for draft release *)
        d <- ask (draft_release_exists (PStr release_tag)) ;;
        if d then Ret DRAFT_READY else Ret SNAPSHOT_ACTIVE
    | [] =>
        (* Step 4: No snapshot - check release-plan.yaml *)
        plan <- _read_release_plan "main" ;;
        if truthy plan then
          repository <- py_get plan "repository" (PDict []) ;;
          target_tag <- py_get repository "target_release_tag" PNone ;;
          repository <- py_get plan "repository" (PDict []) ;;
          release_type <- py_get repository "target_release_type" PNone ;;
          if eq_str target_tag release_tag then
            c <- type_is_set release_type ;;
            if c then Ret PLANNED
            else
              c <- type_is_none release_type ;;
              if c then Ret NOT_PLANNED
              else Ret NOT_PLANNED
          else Ret NOT_PLANNED
        else Ret NOT_PLANNED
    end.

Definition get_current_snapshot `{PyRuntime} (release_tag : string)
  : Prog (option SnapshotInfo.t) :=
  branches <-
    ask (list_branches (config.SNAPSHOT_BRANCH_PREFIX ++ release_tag ++ "-*")) ;;
  match branches with
  | [] => Ret None
  | branch :: _ =>
      let branch_name := branch_name branch in
      let snapshot_id := Str.replace config.SNAPSHOT_BRANCH_PREFIX "" branch_name in
      metadata <- _read_release_metadata branch_name ;;
      fields <-
        (if truthy metadata then
           repo_section <- py_get metadata "repository" (PDict []) ;;
           src_commit_sha <- py_get repo_section "src_commit_sha" (PStr (sha branch)) ;;
           release_type <- py_get repo_section "release_type" (PStr "") ;;
           apis <- py_get metadata "apis" (PList []) ;;
           deps <- py_get metadata "dependencies" (PDict []) ;;
           commonalities_release <- py_get deps "commonalities_release" (PStr "") ;;
           identity_consent_management_release <-
             py_get deps "identity_consent_management_release" (PStr "") ;;
           Ret (src_commit_sha, release_type, apis, commonalities_release,
                identity_consent_management_release)
         else
           Ret (PStr (sha branch), PStr "", PList [], PStr "", PStr "")) ;;
      let '(src_commit_sha, release_type, apis, commonalities_release,
            identity_consent_management_release) := fields in
      created_at_str <- ask (get_branch_creation_time branch_name) ;;
      created_at <-
        match created_at_str with
        | Some str =>
            if Str.nonempty str then
              match fromisoformat (Str.replace "Z" "+00:00" str) with
              | Some t => Ret t
              | None => ask datetime_now
              end
            else ask datetime_now
        | None => ask datetime_now
        end ;;
      let release_review_branch :=
        config.RELEASE_REVIEW_BRANCH_PREFIX ++ snapshot_id in
      release_pr_number <- ask (find_pr_for_branch release_review_branch) ;;
      Ret (Some (SnapshotInfo.make snapshot_id branch_name release_review_branch
                   src_commit_sha created_at release_pr_number release_type apis
                   commonalities_release identity_consent_management_release))
  end.

(** The loop of [find_release_issue]; [release_tag in title] needs a
    string on its left. *)
Fixpoint find_in_issues `{PyRuntime} (release_tag : pyval) (issues : list Issue)
  : Prog (option Z) :=
  match issues with
  | [] => Ret None
  | issue :: issues' =>
      let body := match body issue with Some b => b | None => "" end in
      let title := match title issue with Some t => t | None => "" end in
      if negb (Str.contains WORKFLOW_MARKER body)
      then find_in_issues release_tag issues'
      else
        match release_tag with
        | PStr tag =>
            if Str.contains tag title then Ret (Some (number issue))
            else find_in_issues release_tag issues'
        | _ => Raise TypeError
        end
  end.

Definition find_release_issue `{PyRuntime} (release_tag : pyval) : Prog (option Z) :=
  issues <- ask (search_issues [RELEASE_ISSUE_LABEL] "open") ;;
  find_in_issues release_tag issues.

Definition config_failure `{PyRuntime} (e : ConfigurationError)
  : Prog (pyval * option ConfigurationError) :=
  Ret (PNone, Some e).

Definition _read_release_plan_with_validation `{PyRuntime} (ref : string)
  : Prog (pyval * option ConfigurationError) :=
  content <- ask (get_file_content config.RELEASE_PLAN_FILE ref) ;;
  match content with
  | None =>
      config_failure
        {| error_type := "missing_file";
           message := "No " ++ config.RELEASE_PLAN_FILE ++ " found on " ++ ref ++ " branch";
           file_path := config.RELEASE_PLAN_FILE;
           field_path := None |}
  | Some content =>
      (* Try to parse YAML *)
      match safe_load content with
      | OtherError e => Raise e
      | YAMLError e =>
          config_failure
            {| error_type := "malformed_yaml";
               message := "Invalid YAML syntax in " ++ config.RELEASE_PLAN_FILE ++ ": " ++ e;
               file_path := config.RELEASE_PLAN_FILE;
               field_path := None |}
      | Loaded plan =>
          (* Validate plan is a dict *)
          if negb (is_dict plan) then
            config_failure
              {| error_type := "malformed_yaml";
                 message := config.RELEASE_PLAN_FILE
                            ++ " must contain a YAML mapping (not empty or scalar)";
                 file_path := config.RELEASE_PLAN_FILE;
                 field_path := None |}
          else
            (* Validate required fields *)
            repository <- py_get plan "repository" PNone ;;
            if negb (truthy repository) || negb (is_dict repository) then
              config_failure
                {| error_type := "missing_field";
                   message := "Missing 'repository' section in " ++ config.RELEASE_PLAN_FILE;
                   file_path := config.RELEASE_PLAN_FILE;
                   field_path := Some "repository" |}
            else
              target_release_tag <- py_get repository "target_release_tag" PNone ;;
              if negb (truthy target_release_tag) then
                config_failure
                  {| error_type := "missing_field";
                     message := "Missing 'target_release_tag' in "
                                ++ config.RELEASE_PLAN_FILE ++ " repository section";
                     file_path := config.RELEASE_PLAN_FILE;
                     field_path := Some "repository.target_release_tag" |}
              else Ret (plan, None)
      end
  end.

(** The local variables bound when the snapshot branch of
    [get_current_release_info] builds its result; [snapshot_id] is bound
    only where the metadata was not readable. *)
Definition snapshot_path_locals `{PyRuntime}
  (plan plan_release_tag plan_release_type : pyval)
  (snapshot_branches : list Branch) (snapshot_branch : string)
  (metadata metadata_release_tag : pyval) (snapshot_id : option string)
  (state : ReleaseState) (effective_tag : pyval) : frame :=
  ([ ("self", OSelf);
     ("plan", OVal plan);
     ("config_error", OError None);
     ("plan_release_tag", OVal plan_release_tag);
     ("plan_release_type", OVal plan_release_type);
     ("snapshot_branches", OBranches snapshot_branches);
     ("snapshot_branch", OStr snapshot_branch);
     ("metadata", OVal metadata);
     ("metadata_release_tag", OVal metadata_release_tag) ]
   ++ match snapshot_id with
      | Some id => [("snapshot_id", OStr id)]
      | None => []
      end
   ++ [ ("state", OState state);
        ("effective_tag", OVal effective_tag) ])%list.

(** [snapshot.release_type if 'snapshot' in locals() and snapshot else None] *)
Definition snapshot_release_type `{PyRuntime} (locals : frame) : Prog pyval :=
  match frame_lookup "snapshot" locals with
  | Some snapshot =>
      if obj_truthy snapshot then obj_release_type snapshot else Ret PNone
  | None => Ret PNone
  end.

Definition get_current_release_info `{PyRuntime} : Prog ReleaseInfoResult.t :=
  r <- _read_release_plan_with_validation "main" ;;
  let '(plan, config_error) := r in
  match config_error with
  | Some e =>
      Ret (ReleaseInfoResult.make false PNone None None None (Some e) None PNone)
  | None =>
      (* At this point, plan is valid with all required fields *)
      repository <- py_getitem plan "repository" ;;
      plan_release_tag <- py_getitem repository "target_release_tag" ;;
      repository <- py_getitem plan "repository" ;;
      plan_release_type <- py_get repository "target_release_type" PNone ;;
      (* Check if the planned release is already published *)
      published <- ask (tag_exists plan_release_tag) ;;
      if published then
        issue <- find_release_issue plan_release_tag ;;
        Ret (ReleaseInfoResult.make true plan_release_tag (Some PUBLISHED) None
               (Some "tag") None issue plan_release_type)
      else
        (* Check for any snapshot branches for the planned release *)
        snapshot_branches <-
          ask (list_branches (config.SNAPSHOT_BRANCH_PREFIX
                              ++ format_value plan_release_tag ++ "-*")) ;;
        match snapshot_branches with
        | first :: _ =>
            let snapshot_branch := branch_name first in
            metadata <- _read_release_metadata snapshot_branch ;;
            r <-
              (if truthy metadata then
                 repository <- py_get metadata "repository" (PDict []) ;;
                 tag <- py_get repository "release_tag" PNone ;;
                 Ret (tag, None)
               else
                 let snapshot_id :=
                   Str.replace config.SNAPSHOT_BRANCH_PREFIX "" snapshot_branch in
                 Ret (PStr (if Str.has_char "-" snapshot_id
                            then Str.split_head "-" snapshot_id
                            else snapshot_id),
                      Some snapshot_id)) ;;
            let '(metadata_release_tag, snapshot_id) := r in
            (* Determine if draft ready *)
            d <- ask (draft_release_exists (py_or metadata_release_tag plan_release_tag)) ;;
            let state := if d then DRAFT_READY else SNAPSHOT_ACTIVE in
            let effective_tag := py_or metadata_release_tag plan_release_tag in
            issue <- find_release_issue effective_tag ;;
            release_type <-
              snapshot_release_type
                (snapshot_path_locals plan plan_release_tag plan_release_type
                   snapshot_branches snapshot_branch metadata metadata_release_tag
                   snapshot_id state effective_tag) ;;
            Ret (ReleaseInfoResult.make true effective_tag (Some state)
                   (Some snapshot_branch) (Some "release-metadata.yaml") None
                   issue release_type)
        | [] =>
            (* No snapshot - use release-plan.yaml state *)
            c <- type_is_set plan_release_type ;;
            let state := if c then PLANNED else NOT_PLANNED in
            issue <- find_release_issue plan_release_tag ;;
            Ret (ReleaseInfoResult.make true plan_release_tag (Some state) None
                   (Some "release-plan.yaml") None issue plan_release_type)
        end
  end.

End ReleaseStateManager.

(** ** Notions of the specification *)

(** A base version [MAJOR.MINOR.PATCH] and nothing else: its three
    components as written. *)
Definition base_version_match (s : string) : option (string * string * string) :=
  match Str.many1 Str.is_digit s with
  | None => None
  | Some (major, r1) =>
  match Str.lit "." r1 with
  | None => None
  | Some r2 =>
  match Str.many1 Str.is_digit r2 with
  | None => None
  | Some (minor, r3) =>
  match Str.lit "." r3 with
  | None => None
  | Some r4 =>
  match Str.many1 Str.is_digit r4 with
  | None => None
  | Some (patch, r5) =>
      match r5 with
      | EmptyString => Some (major, minor, patch)
      | _ => None
      end
  end end end end end.

(** The URL version base of the specification: [v0.{minor}] when the major
    number is 0, [v{major}] when it is 1 or more; what is not a base
    version renders as work in progress. *)
Definition url_version_base (v : string) : string :=
  match base_version_match v with
  | Some (major, minor, _) =>
      if N.eqb (Str.int major) 0 then "v0." ++ minor
      else "v" ++ Str.of_N (Str.int major)
  | None => "vwip"
  end.

(** A non-empty string of characters of one class. *)
Definition word (p : ascii -> bool) (s : string) : bool :=
  Str.nonempty s && Str.all p s.

(** The first character of [s], if any, is outside the class. *)
Definition stops (p : ascii -> bool) (s : string) : bool :=
  match s with
  | EmptyString => true
  | String c _ => negb (p c)
  end.

(** What is wrong with the [release-metadata.yaml] of a release or of a
    branch, if anything: the file is missing, or the parser rejects it
    with a [yaml.YAMLError], or the parser raises another exception on
    it.  An empty file is read as [None] without being parsed. *)
Inductive defect : Type :=
| Missing
| Rejected
| Crashing (e : exn).

Definition metadata_defect `{PyRuntime} (gh : Repository) (tag : string)
  : option defect :=
  match gh _ (get_file_content "release-metadata.yaml" tag) with
  | None => Some Missing
  | Some content =>
      if Str.nonempty content then
        match safe_load content with
        | YAMLError _ => Some Rejected
        | OtherError e => Some (Crashing e)
        | Loaded _ => None
        end
      else None
  end.

(** Metadata that is missing or does not parse, as the specification puts
    it: any of the three defects. *)
Definition unreadable_metadata `{PyRuntime} (gh : Repository) (tag : string) : bool :=
  match metadata_defect gh tag with
  | Some _ => true
  | None => false
  end.

(** The defects the readers provide for: a missing file and a
    [yaml.YAMLError]. *)
Definition tolerated_metadata `{PyRuntime} (gh : Repository) (tag : string) : bool :=
  match metadata_defect gh tag with
  | Some Missing | Some Rejected => true
  | _ => false
  end.

(** Every result the program can return, whatever the answers to its
    queries are, satisfies [P]. *)
Fixpoint leaves `{PyRuntime} {R : Type} (P : R -> Prop) (p : Prog R) : Prop :=
  match p with
  | Ret r => P r
  | Raise _ => True
  | Vis q k => forall a, leaves P (k a)
  end.

(** The release-plan document on the default branch, when it is there and
    parses. *)
Definition plan_document `{PyRuntime} (gh : Repository) : option pyval :=
  match gh _ (get_file_content "release-plan.yaml" "main") with
  | Some content =>
      match safe_load content with
      | Loaded plan => Some plan
      | YAMLError _ | OtherError _ => None
      end
  | None => None
  end.

(** The [repository.target_release_tag] of a release plan that passes the
    validation of [get_current_release_info]. *)
Definition planned_release_tag `{PyRuntime} (gh : Repository) : option pyval :=
  match plan_document gh with
  | Some (PDict plan) =>
      match assoc "repository" plan with
      | Some (PDict repository) =>
          match assoc "target_release_tag" repository with
          | Some tag => if truthy tag then Some tag else None
          | None => None
          end
      | _ => None
      end
  | _ => None
  end.

(** The string [none], in any case. *)
Definition is_none_string (v : pyval) : bool :=
  match v with
  | PStr s => String.eqb (Str.lower s) "none"
  | _ => false
  end.

(** The state of an unpublished release as the specification words it:
    with a snapshot branch, [DraftReady] or [SnapshotActive]; without one,
    [Planned] when the plan is a mapping that names this release and its
    [target_release_type] is present and not the string [none], and
    [NotPlanned] in every remaining case. *)
Definition derive_state_claimed `{PyRuntime} (gh : Repository) (release_tag : string)
  : ReleaseState :=
  match gh _ (list_branches (config.SNAPSHOT_BRANCH_PREFIX ++ release_tag ++ "-*")) with
  | _ :: _ =>
      if gh _ (draft_release_exists (PStr release_tag)) then DRAFT_READY
      else SNAPSHOT_ACTIVE
  | [] =>
      match plan_document gh with
      | Some (PDict plan) =>
          match assoc "repository" plan with
          | Some (PDict repository) =>
              match assoc "target_release_tag" repository with
              | Some tag =>
                  if eq_str tag release_tag then
                    match assoc "target_release_type" repository with
                    | Some PNone | None => NOT_PLANNED
                    | Some type => if is_none_string type then NOT_PLANNED else PLANNED
                    end
                  else NOT_PLANNED
              | None => NOT_PLANNED
              end
          | _ => NOT_PLANNED
          end
      | _ => NOT_PLANNED
      end
  end.

(** The same with the two amendments: a release type that is empty or
    false counts as absent, and nothing is said ([None]) where the parser
    raises something other than a [yaml.YAMLError] on the plan, where the
    plan is a non-empty value other than a mapping, where its [repository]
    entry is not a mapping, and where the release is named and its type is
    a true value other than a string. *)
Definition derive_state_amended `{PyRuntime} (gh : Repository) (release_tag : string)
  : option ReleaseState :=
  match gh _ (list_branches (config.SNAPSHOT_BRANCH_PREFIX ++ release_tag ++ "-*")) with
  | _ :: _ =>
      Some (if gh _ (draft_release_exists (PStr release_tag)) then DRAFT_READY
            else SNAPSHOT_ACTIVE)
  | [] =>
      match gh _ (get_file_content "release-plan.yaml" "main") with
      | None => Some NOT_PLANNED
      | Some content =>
          if negb (Str.nonempty content) then Some NOT_PLANNED
          else
            match safe_load content with
            | OtherError _ => None
            | YAMLError _ => Some NOT_PLANNED
            | Loaded plan =>
                if negb (truthy plan) then Some NOT_PLANNED
                else
                  match plan with
                  | PDict entries =>
                      match
                        match assoc "repository" entries with
                        | None => Some []
                        | Some (PDict repository) => Some repository
                        | Some _ => None
                        end
                      with
                      | None => None
                      | Some repository =>
                          let named :=
                            match assoc "target_release_tag" repository with
                            | Some tag => eq_str tag release_tag
                            | None => false
                            end in
                          if named then
                            match assoc "target_release_type" repository with
                            | None => Some NOT_PLANNED
                            | Some type =>
                                if negb (truthy type) then Some NOT_PLANNED
                                else
                                  match type with
                                  | PStr _ =>
                                      Some (if is_none_string type then NOT_PLANNED
                                            else PLANNED)
                                  | _ => None
                                  end
                            end
                          else Some NOT_PLANNED
                      end
                  | _ => None
                  end
            end
      end
  end.

(** What reading the metadata of a release comes to: the value of the
    document, [None] for a file that is missing, empty or rejected with a
    [yaml.YAMLError], and the exception the parser raises otherwise. *)
Definition release_metadata `{PyRuntime} (gh : Repository) (tag : string)
  : outcome pyval :=
  match gh _ (get_file_content "release-metadata.yaml" tag) with
  | None => Returned PNone
  | Some content =>
      if Str.nonempty content then
        match safe_load content with
        | Loaded v => Returned v
        | YAMLError _ => Returned PNone
        | OtherError e => Raised e
        end
      else Returned PNone
  end.

(** The same for the release plan on a branch. *)
Definition release_plan `{PyRuntime} (gh : Repository) (ref : string)
  : outcome pyval :=
  match gh _ (get_file_content "release-plan.yaml" ref) with
  | None => Returned PNone
  | Some content =>
      if Str.nonempty content then
        match safe_load content with
        | Loaded v => Returned v
        | YAMLError _ => Returned PNone
        | OtherError e => Raised e
        end
      else Returned PNone
  end.

(** The API entries of a metadata document of the expected shape: none
    when the document is empty or false, the list under [apis] when it is
    a mapping. *)
Definition metadata_apis (metadata : pyval) : option (list pyval) :=
  if negb (truthy metadata) then Some []
  else
    match metadata with
    | PDict d =>
        match assoc "apis" d with
        | None => Some []
        | Some (PList l) => Some l
        | Some _ => None
        end
    | _ => None
    end.

(** An API entry of the expected shape: a mapping whose [api_version],
    where the entry is for [api_name], is a string or absent. *)
Definition api_entry_ok (api_name : string) (api : pyval) : bool :=
  match api with
  | PDict d =>
      match assoc "api_name" d with
      | Some n =>
          if eq_str n api_name then
            match assoc "api_version" d with
            | Some (PStr _) | None => true
            | Some _ => false
            end
          else true
      | None => true
      end
  | _ => false
  end.

(** The extensions one API entry contributes: that of its version, when
    the entry is for [api_name] and the version collides with the target. *)
Definition contribution (api_name target_version target_status : string)
  (api : pyval) : list N :=
  match api with
  | PDict d =>
      match assoc "api_name" d with
      | Some n =>
          if eq_str n api_name then
            match assoc "api_version" d with
            | Some (PStr v) =>
                match _parse_extension v target_version target_status with
                | Some e => [e]
                | None => []
                end
            | _ => []
            end
          else []
      | None => []
      end
  | _ => []
  end.

(** The API entries of the metadata of a release, where the metadata can
    be read and has the expected shape. *)
Definition release_apis `{PyRuntime} (gh : Repository) (r : Release)
  : option (list pyval) :=
  match release_metadata gh (tag_name r) with
  | Returned metadata => metadata_apis metadata
  | Raised _ => None
  end.

Definition release_ok `{PyRuntime} (gh : Repository) (api_name : string)
  (r : Release) : bool :=
  match release_apis gh r with
  | Some l => forallb (api_entry_ok api_name) l
  | None => false
  end.

Definition release_contribution `{PyRuntime} (gh : Repository)
  (api_name target_version target_status : string) (r : Release) : list N :=
  match release_apis gh r with
  | Some l => flat_map (contribution api_name target_version target_status) l
  | None => []
  end.

(** ** Test doubles

    A repository given by tables, in the manner of the mocked client of
    the unit tests, and a run time whose YAML parser knows the documents
    below. *)

Module Mock.

Record t : Type := make {
  tags : list string;
  branches : list (string * list Branch);
  draft_releases : list string;
  files : list (string * string * string);
  releases : list Release;
  creation_times : list (string * string);
  pull_requests : list (string * Z);
  issues : list Issue;
  clock : string
}.

Definition empty : t := make [] [] [] [] [] [] [] [] "2026-01-01T00:00:00".

Fixpoint lookup {V : Type} (key : string) (l : list (string * V)) : option V :=
  match l with
  | [] => None
  | (k, v) :: l' => if String.eqb k key then Some v else lookup key l'
  end.

Fixpoint file (path ref : string) (l : list (string * string * string))
  : option string :=
  match l with
  | [] => None
  | (p, r, c) :: l' =>
      if String.eqb p path && String.eqb r ref then Some c else file path ref l'
  end.

Definition documents : list (string * loaded) :=
  [ ("apis: [{api_name: test-api, api_version: 2.0.0-rc.1}]",
     Loaded (PDict [("apis", PList [PDict [("api_name", PStr "test-api");
                                        ("api_version", PStr "2.0.0-rc.1")]])]));
    ("apis: [{api_name: test-api, api_version: 2.0.0-rc.3}]",
     Loaded (PDict [("apis", PList [PDict [("api_name", PStr "test-api");
                                        ("api_version", PStr "2.0.0-rc.3")]])]));
    ("repository: {target_release_tag: r4.1, target_release_type: pre-release-rc}",
     Loaded (PDict [("repository", PDict [("target_release_tag", PStr "r4.1");
                                       ("target_release_type", PStr "pre-release-rc")])]));
    ("repository: {target_release_tag: r4.1, target_release_type: none}",
     Loaded (PDict [("repository", PDict [("target_release_tag", PStr "r4.1");
                                       ("target_release_type", PStr "none")])]));
    ("repository: {target_release_tag: r4.1, target_release_type: ''}",
     Loaded (PDict [("repository", PDict [("target_release_tag", PStr "r4.1");
                                       ("target_release_type", PStr "")])]));
    ("repository: {release_tag: r4.1, release_type: pre-release-rc}",
     Loaded (PDict [("repository", PDict [("release_tag", PStr "r4.1");
                                       ("release_type", PStr "pre-release-rc")])]));
    ("- r4.1",
     Loaded (PList [PStr "r4.1"]));
    ("release_date: 2026-02-30",
     OtherError ValueError) ].

Definition yaml (content : string) : loaded :=
  match lookup content documents with
  | Some r => r
  | None => YAMLError "could not parse the document"
  end.

Definition runtime : PyRuntime := {|
  datetime := string;
  safe_load := yaml;
  fromisoformat := fun s =>
    match s with
    | String c _ => if Str.is_digit c then Some s else None
    | EmptyString => None
    end;
  format_other := fun _ => "?"
|}.

(** The client answers the queries from the tables; it has nothing to say
    about attributes, which [with_attributes] keeps. *)
Definition client (m : t) : @Repository runtime :=
  fun A q =>
    match q in Query A return A with
    | tag_exists tag => existsb (eq_str tag) (tags m)
    | list_branches pattern =>
        match lookup pattern (branches m) with Some l => l | None => [] end
    | draft_release_exists tag => existsb (eq_str tag) (draft_releases m)
    | get_file_content path ref => file path ref (files m)
    | get_releases include_drafts =>
        filter (fun r => include_drafts || negb (draft r)) (releases m)
    | get_branch_creation_time branch => lookup branch (creation_times m)
    | find_pr_for_branch head_branch => lookup head_branch (pull_requests m)
    | search_issues _ _ => issues m
    | datetime_now => clock m
    | print _ => tt
    | get_attribute _ => None
    | set_attribute _ _ => tt
    end.

Definition release (tag : string) : Release :=
  {| tag_name := tag; name := ""; draft := false; prerelease := true; html_url := "" |}.

(** Releases [r3.0] and [r3.2] carry [test-api] at [2.0.0-rc.1] and
    [2.0.0-rc.3]; [r2.0] has no metadata and that of [r2.1] does not
    parse. *)
Definition gaps : t :=
  make [] [] []
    [ ("release-metadata.yaml", "r3.0",
       "apis: [{api_name: test-api, api_version: 2.0.0-rc.1}]");
      ("release-metadata.yaml", "r2.1", "{{invalid yaml::");
      ("release-metadata.yaml", "r3.2",
       "apis: [{api_name: test-api, api_version: 2.0.0-rc.3}]") ]
    [release "r3.0"; release "r3.2"] [] [] [] "2026-01-01T00:00:00".

Definition gaps_and_unreadable : t :=
  make [] [] [] (files gaps)
    [release "r3.0"; release "r2.1"; release "r3.2"] [] [] [] "2026-01-01T00:00:00".

(** The same two releases and, between them, [r3.1], whose metadata gives
    a date that does not exist. *)
Definition impossible_date : t :=
  make [] [] []
    (("release-metadata.yaml", "r3.1", "release_date: 2026-02-30") :: files gaps)
    [release "r3.0"; release "r3.1"; release "r3.2"] [] [] [] "2026-01-01T00:00:00".

Definition snapshot_branch : Branch :=
  {| branch_name := "release-snapshot/r4.1-abc1234"; sha := "abc1234def5678" |}.

Definition plan_rc : string * string * string :=
  ("release-plan.yaml", "main",
   "repository: {target_release_tag: r4.1, target_release_type: pre-release-rc}").

(** The plan names [r4.1] as a release candidate; nothing else exists. *)
Definition planned : t :=
  make [] [] [] [plan_rc] [] [] [] [] "2026-01-01T00:00:00".

(** The plan names [r4.1] with an empty release type. *)
Definition empty_type : t :=
  make [] [] []
    [ ("release-plan.yaml", "main",
       "repository: {target_release_tag: r4.1, target_release_type: ''}") ]
    [] [] [] [] "2026-01-01T00:00:00".

(** The plan is a sequence, not a mapping. *)
Definition sequence_plan : t :=
  make [] [] [] [("release-plan.yaml", "main", "- r4.1")]
    [] [] [] [] "2026-01-01T00:00:00".

(** The plan does not parse. *)
Definition malformed_plan : t :=
  make [] [] [] [("release-plan.yaml", "main", "{{invalid yaml::")]
    [] [] [] [] "2026-01-01T00:00:00".

(** A snapshot branch whose metadata names a release type. *)
Definition snapshot : t :=
  make [] [("release-snapshot/r4.1-*", [snapshot_branch])] []
    [ plan_rc;
      ("release-metadata.yaml", "release-snapshot/r4.1-abc1234",
       "repository: {release_tag: r4.1, release_type: pre-release-rc}") ]
    [] [("release-snapshot/r4.1-abc1234", "2026-03-01T10:00:00Z")]
    [("release-review/r4.1-abc1234", 42%Z)] [] "2026-01-01T00:00:00".

(** A snapshot branch whose metadata does not parse. *)
Definition snapshot_unreadable : t :=
  make [] [("release-snapshot/r4.1-*", [snapshot_branch])] []
    [ plan_rc;
      ("release-metadata.yaml", "release-snapshot/r4.1-abc1234", "{{invalid yaml::") ]
    [] [] [] [] "2026-01-01T00:00:00".

(** A snapshot branch whose metadata gives a date that does not exist. *)
Definition snapshot_impossible_date : t :=
  make [] [("release-snapshot/r4.1-*", [snapshot_branch])] []
    [ plan_rc;
      ("release-metadata.yaml", "release-snapshot/r4.1-abc1234",
       "release_date: 2026-02-30") ]
    [] [] [] [] "2026-01-01T00:00:00".

(** A plan that gives a date that does not exist. *)
Definition plan_impossible_date : t :=
  make [] [] [] [("release-plan.yaml", "main", "release_date: 2026-02-30")]
    [] [] [] [] "2026-01-01T00:00:00".

(** The snapshot branch and a draft release for [r4.1]. *)
Definition draft_ready : t :=
  make [] [("release-snapshot/r4.1-*", [snapshot_branch])] ["r4.1"]
    [plan_rc] [] [] [] [] "2026-01-01T00:00:00".

(** The plan names [r4.1] with the release type [none]. *)
Definition not_planned : t :=
  make [] [] []
    [ ("release-plan.yaml", "main",
       "repository: {target_release_tag: r4.1, target_release_type: none}") ]
    [] [] [] [] "2026-01-01T00:00:00".

(** The tag [r4.1] exists, and so do a snapshot branch, a draft release
    and the plan. *)
Definition published : t :=
  make ["r4.1"] [("release-snapshot/r4.1-*", [snapshot_branch])] ["r4.1"]
    [plan_rc] [] [] [] [] "2026-01-01T00:00:00".

(** A world that counts the queries made so far, over a repository that
    does not change. *)
Definition counting (m : t) : @Handler runtime nat :=
  fun A q n => (client m A q, S n).

(** A world that keeps the lines printed so far. *)
Definition logging (m : t) : @Handler runtime (list string) :=
  fun A q log =>
    (client m A q,
     match q with
     | print line => (log ++ [line])%list
     | _ => log
     end).

End Mock.

(** * Properties *)

(** ** Running programs *)

Section Running.

Context {rt : PyRuntime}.

Lemma run_bind {A B : Type} (gh : Repository) (p : Prog A) (f : A -> Prog B) :
  run gh (bind p f)
  = match run gh p with
    | Returned a => run gh (f a)
    | Raised e => Raised e
    end.
Proof. induction p as [a|e|X q k IH]; simpl; auto. Qed.

Lemma exec_bind {W A B : Type} (h : Handler W) (p : Prog A) (f : A -> Prog B) (w : W) :
  exec h (bind p f) w
  = match exec h p w with
    | (Returned a, w') => exec h (f a) w'
    | (Raised e, w') => (Raised e, w')
    end.
Proof.
  revert w. induction p as [a|e|X q k IH]; intros w; simpl; auto.
  destruct (h X q w) as [a w']. apply IH.
Qed.

Lemma exec_still {W R : Type} (gh : Repository) (p : Prog R) (w : W) :
  exec (still gh) p w = (run gh p, w).
Proof. induction p as [a|e|X q k IH]; simpl; auto. Qed.

End Running.


(** ** Strings and patterns *)

Section StrFacts.

Variable p : ascii -> bool.

Lemma append_empty_r (s : string) : s ++ "" = s.
Proof. induction s; simpl; congruence. Qed.

Lemma append_assoc (a b c : string) : (a ++ b) ++ c = a ++ b ++ c.
Proof. induction a; simpl; congruence. Qed.

Lemma append_length (a b : string) :
  String.length (a ++ b) = String.length a + String.length b.
Proof. induction a; simpl; congruence. Qed.

Lemma append_inv_tail (a b c : string) : a ++ c = b ++ c -> a = b.
Proof.
  revert b; induction a as [|x a IH]; intros [|y b] E; simpl in E.
  - reflexivity.
  - apply (f_equal String.length) in E; simpl in E.
    rewrite append_length in E; lia.
  - apply (f_equal String.length) in E; simpl in E.
    rewrite append_length in E; lia.
  - injection E as -> E. f_equal. now apply IH.
Qed.

Lemma span_spec (s : string) :
  s = fst (Str.span p s) ++ snd (Str.span p s)
  /\ Str.all p (fst (Str.span p s)) = true
  /\ stops p (snd (Str.span p s)) = true.
Proof.
  induction s as [|c s IH]; simpl.
  - auto.
  - destruct (p c) eqn:Hc.
    + destruct (Str.span p s) as [a b]; simpl in *.
      destruct IH as (E & Ha & Hb). rewrite Hc.
      repeat split; auto. congruence.
    + simpl. rewrite Hc. auto.
Qed.

Lemma span_append (s t : string) :
  stops p t = true ->
  Str.span p (s ++ t) = (fst (Str.span p s), snd (Str.span p s) ++ t).
Proof.
  intros Ht. induction s as [|c s IH]; simpl.
  - destruct t as [|d t]; simpl in *; auto.
    destruct (p d); simpl in *; congruence.
  - destruct (p c); auto.
    rewrite IH. destruct (Str.span p s); reflexivity.
Qed.

Lemma span_all (s : string) : Str.all p s = true -> Str.span p s = (s, "").
Proof.
  induction s as [|c s IH]; simpl; auto.
  intros H; apply andb_prop in H as [-> H]. now rewrite IH.
Qed.

Lemma many1_spec (s a b : string) :
  Str.many1 p s = Some (a, b) ->
  s = a ++ b /\ word p a = true /\ stops p b = true.
Proof.
  unfold Str.many1, word. destruct (span_spec s) as (E & Ha & Hb).
  destruct (Str.span p s) as [a' b']; simpl in *.
  destruct (Str.nonempty a') eqn:N; intros [= <- <-]; rewrite ?N, ?Ha; auto.
Qed.

Lemma many1_append (s t : string) :
  stops p t = true ->
  Str.many1 p (s ++ t)
  = match Str.many1 p s with
    | Some (a, b) => Some (a, b ++ t)
    | None => None
    end.
Proof.
  intros Ht. unfold Str.many1. rewrite (span_append s t Ht).
  destruct (Str.span p s) as [a b]; simpl. now destruct (Str.nonempty a).
Qed.

Lemma many1_word (a t : string) :
  word p a = true -> stops p t = true -> Str.many1 p (a ++ t) = Some (a, t).
Proof.
  unfold word. intros H Ht; apply andb_prop in H as [N A].
  rewrite (many1_append a t Ht). unfold Str.many1.
  rewrite (span_all a A), N. reflexivity.
Qed.

End StrFacts.

Lemma lit_append (c : ascii) (s t : string) :
  Str.lit c t = None ->
  Str.lit c (s ++ t)
  = match Str.lit c s with Some r => Some (r ++ t) | None => None end.
Proof.
  intros Ht. destruct s as [|d s]; simpl; auto.
  now destruct (Ascii.eqb d c).
Qed.

Lemma at_end_append (s t : string) :
  2 <= String.length t -> Str.at_end (s ++ t) = false.
Proof.
  intros Ht. destruct s as [|c s]; simpl.
  - destruct t as [|c [|d t]]; simpl in *; auto; lia.
  - destruct (s ++ t) eqn:E; auto.
    apply (f_equal String.length) in E. rewrite append_length in E.
    simpl in E; lia.
Qed.

Lemma of_N_digits (n : N) : word Str.is_digit (Str.of_N n) = true.
Proof.
  unfold Str.of_N, word.
  assert (A : forall d, Str.all Str.is_digit (NilEmpty.string_of_uint d) = true)
    by (induction d; simpl; auto).
  rewrite A, andb_true_r.
  destruct n as [|q]; simpl; auto.
  pose proof (DecimalPos.Unsigned.to_uint_nonnil q) as NN.
  destruct (Pos.to_uint q); simpl; congruence.
Qed.

Lemma of_N_inj (a b : N) : Str.of_N a = Str.of_N b -> a = b.
Proof.
  unfold Str.of_N. intros E. apply Unsigned.to_uint_inj.
  apply (f_equal NilEmpty.uint_of_string) in E.
  rewrite !NilEmpty.usu in E. congruence.
Qed.



(** The examples of the docstring of [calculate_url_version]. *)
Example calculate_url_version_docstring :
  map calculate_url_version
    ["0.3.0-alpha.1"; "1.2.0-alpha.2"; "1.2.0-rc.3"; "0.3.0"; "1.0.0"; "wip"]
  = ["v0.3alpha1"; "v1alpha2"; "v1rc3"; "v0.3"; "v1"; "vwip"].
Proof. reflexivity. Qed.

(** The cases of [TestParseExtension]. *)
Example parse_extension_tests :
  _parse_extension "3.2.0-rc.5" "3.2.0" "rc" = Some 5%N
  /\ _parse_extension "3.1.0-rc.5" "3.2.0" "rc" = Some 5%N
  /\ _parse_extension "1.2.0-rc.2" "1.2.1" "rc" = Some 2%N
  /\ _parse_extension "1.2.0-alpha.1" "2.0.0" "alpha" = None
  /\ _parse_extension "0.4.0-alpha.2" "0.4.1" "alpha" = Some 2%N
  /\ _parse_extension "0.4.0-rc.1" "0.5.0" "rc" = None
  /\ _parse_extension "3.2.0-alpha.5" "3.2.0" "rc" = None
  /\ _parse_extension "3.2.0" "3.2.0" "rc" = None
  /\ _parse_extension "invalid-version" "3.2.0" "rc" = None.
Proof. repeat split; reflexivity. Qed.

(** What the pattern functions do at the edges: [$] lets a final newline
    pass, a minor number keeps its leading zeros in the URL version, and a
    major number loses them. *)
Example pattern_edges :
  _parse_extension (String.append "3.1.0-rc.5" (String "010" "")) "3.2.0" "rc" = Some 5%N
  /\ calculate_url_version "0.04.0" = "v0.04"
  /\ calculate_url_version "01.2.0" = "v1"
  /\ _parse_extension "0.04.0-alpha.1" "0.4.0" "alpha" = None
  /\ _parse_extension "3.1.0-rc.5" "wip" "rc" = None.
Proof. repeat split; reflexivity. Qed.

(** ** URL versions and collisions *)

Lemma calculate_url_version_match (s : string) :
  calculate_url_version s
  = match url_pattern_match s with
    | None => "vwip"
    | Some (major, minor, _, suffix) =>
        let base :=
          if N.eqb (Str.int major) 0 then "v0." ++ minor
          else "v" ++ Str.of_N (Str.int major) in
        match suffix with
        | Some (status, extension) =>
            if Str.nonempty status && Str.nonempty extension
            then base ++ status ++ extension
            else base
        | None => base
        end
    end.
Proof.
  unfold calculate_url_version.
  destruct (String.eqb_spec s "wip") as [->|]; reflexivity.
Qed.

(** The pattern of [calculate_url_version] on a target to which the
    dummy extension [-{status}.1] was appended. *)
Lemma url_pattern_match_dummy (tv st : string) :
  word Str.is_lower st = true ->
  url_pattern_match (tv ++ "-" ++ st ++ ".1")
  = match base_version_match tv with
    | Some (major, minor, patch) => Some (major, minor, patch, Some (st, "1"))
    | None => None
    end.
Proof.
  intros Hst.
  assert (Hrest : Str.many1 Str.is_lower (st ++ ".1") = Some (st, ".1"))
    by (apply many1_word; auto).
  remember ("-" ++ st ++ ".1") as t eqn:Et.
  assert (Hd : stops Str.is_digit t = true) by (subst t; reflexivity).
  assert (Hw : stops Str.is_lower t = true) by (subst t; reflexivity).
  assert (Hl : Str.lit "." t = None) by (subst t; reflexivity).
  assert (Hlen : 2 <= String.length t).
  { subst t; simpl. rewrite append_length; simpl; lia. }
  unfold url_pattern_match, base_version_match.
  rewrite many1_append by auto.
  destruct (Str.many1 Str.is_digit tv) as [[major r1]|]; auto.
  rewrite lit_append by auto. destruct (Str.lit "." r1) as [r2|]; auto.
  rewrite many1_append by auto.
  destruct (Str.many1 Str.is_digit r2) as [[minor r3]|]; auto.
  rewrite lit_append by auto. destruct (Str.lit "." r3) as [r4|]; auto.
  rewrite many1_append by auto.
  destruct (Str.many1 Str.is_digit r4) as [[patch r5]|]; auto.
  rewrite at_end_append by auto.
  destruct r5 as [|c r5].
  - subst t. simpl. rewrite Hrest. reflexivity.
  - simpl. destruct (Ascii.eqb c "-"); auto.
    rewrite many1_append by auto.
    destruct (Str.many1 Str.is_lower r5) as [[l r7]|]; auto.
    rewrite lit_append by auto. destruct (Str.lit "." r7) as [r8|]; auto.
    rewrite many1_append by auto.
    destruct (Str.many1 Str.is_digit r8) as [[d r9]|]; auto.
    now rewrite at_end_append by auto.
Qed.

Lemma calculate_url_version_dummy (tv st : string) :
  word Str.is_lower st = true ->
  calculate_url_version (tv ++ "-" ++ st ++ ".1")
  = match base_version_match tv with
    | Some _ => url_version_base tv ++ st ++ "1"
    | None => "vwip"
    end.
Proof.
  intros Hst. rewrite calculate_url_version_match, url_pattern_match_dummy by auto.
  unfold url_version_base.
  destruct (base_version_match tv) as [[[major minor] patch]|]; auto.
  unfold word in Hst. apply andb_prop in Hst as [-> _]. reflexivity.
Qed.

(** A version base starts with [v] and a digit. *)
Lemma url_version_base_digit (v : string) (x : string * string * string) :
  base_version_match v = Some x ->
  exists c r, url_version_base v = String "v" (String c r) /\ Str.is_digit c = true.
Proof.
  unfold url_version_base. intros ->. destruct x as [[major minor] patch].
  destruct (N.eqb (Str.int major) 0).
  - exists "0"%char, ("." ++ minor). auto.
  - pose proof (of_N_digits (Str.int major)) as D. unfold word in D.
    destruct (Str.of_N (Str.int major)) as [|c r]; simpl in D; try discriminate.
    exists c, r. split; auto. now apply andb_prop in D as [D _].
Qed.

Lemma base_version_match_parts (major minor patch : string) :
  word Str.is_digit major = true ->
  word Str.is_digit minor = true ->
  word Str.is_digit patch = true ->
  base_version_match (major ++ "." ++ minor ++ "." ++ patch)
  = Some (major, minor, patch).
Proof.
  intros H1 H2 H3. unfold base_version_match.
  rewrite many1_word by auto. simpl.
  rewrite many1_word by auto. simpl.
  rewrite <- (append_empty_r patch) at 1.
  rewrite many1_word by auto. reflexivity.
Qed.

Lemma VERSION_PATTERN_match_inv (v bv st ext : string) :
  VERSION_PATTERN_match v = Some (bv, st, ext) ->
  exists major minor patch,
    bv = major ++ "." ++ minor ++ "." ++ patch
    /\ word Str.is_digit major = true
    /\ word Str.is_digit minor = true
    /\ word Str.is_digit patch = true
    /\ word Str.is_lower st = true
    /\ word Str.is_digit ext = true.
Proof.
  unfold VERSION_PATTERN_match.
  destruct (Str.many1 Str.is_digit v) as [[major r1]|] eqn:E1; try discriminate.
  destruct (Str.lit "." r1) as [r2|]; try discriminate.
  destruct (Str.many1 Str.is_digit r2) as [[minor r3]|] eqn:E2; try discriminate.
  destruct (Str.lit "." r3) as [r4|]; try discriminate.
  destruct (Str.many1 Str.is_digit r4) as [[patch r5]|] eqn:E3; try discriminate.
  destruct (Str.lit "-" r5) as [r6|]; try discriminate.
  destruct (Str.many1 Str.is_lower r6) as [[status r7]|] eqn:E4; try discriminate.
  destruct (Str.lit "." r7) as [r8|]; try discriminate.
  destruct (Str.many1 Str.is_digit r8) as [[extension r9]|] eqn:E5; try discriminate.
  destruct (Str.at_end r9); intros [= <- <- <-].
  apply many1_spec in E1 as (_ & ? & _), E2 as (_ & ? & _), E3 as (_ & ? & _),
    E4 as (_ & ? & _), E5 as (_ & ? & _).
  exists major, minor, patch. auto 10.
Qed.

Lemma VERSION_PATTERN_match_parts (major minor patch status ext : string) :
  word Str.is_digit major = true ->
  word Str.is_digit minor = true ->
  word Str.is_digit patch = true ->
  word Str.is_lower status = true ->
  word Str.is_digit ext = true ->
  VERSION_PATTERN_match
    (major ++ "." ++ minor ++ "." ++ patch ++ "-" ++ status ++ "." ++ ext)
  = Some (major ++ "." ++ minor ++ "." ++ patch, status, ext).
Proof.
  intros H1 H2 H3 H4 H5. unfold VERSION_PATTERN_match.
  rewrite many1_word by auto. simpl.
  rewrite many1_word by auto. simpl.
  rewrite many1_word by auto. simpl.
  rewrite many1_word by auto. simpl.
  rewrite <- (append_empty_r ext) at 1.
  rewrite many1_word by auto. reflexivity.
Qed.

Lemma not_vwip (c : ascii) (r s : string) :
  Str.is_digit c = true -> String "v" (String c r) ++ s <> "vwip".
Proof.
  intros D E. simpl in E. injection E as E _. subst c. discriminate.
Qed.

(** [_parse_extension] on arbitrary strings: the extension of [version]
    is returned exactly when [version] has the shape of [VERSION_PATTERN],
    carries the target status, and its base version and the target have
    the same URL version base. *)
Lemma parse_extension_spec (version target_version target_status : string) :
  _parse_extension version target_version target_status
  = match VERSION_PATTERN_match version with
    | Some (base_version, status, extension) =>
        if String.eqb status target_status
           && String.eqb (url_version_base base_version)
                         (url_version_base target_version)
        then Some (Str.int extension)
        else None
    | None => None
    end.
Proof.
  unfold _parse_extension.
  destruct (VERSION_PATTERN_match version) as [[[bv st] ext]|] eqn:E; auto.
  apply VERSION_PATTERN_match_inv in E
    as (major & minor & patch & -> & H1 & H2 & H3 & H4 & H5).
  destruct (String.eqb st target_status); cbn [negb andb]; auto.
  rewrite !calculate_url_version_dummy by auto.
  pose proof (base_version_match_parts major minor patch H1 H2 H3) as B.
  rewrite B.
  destruct (url_version_base_digit _ _ B) as (c & r & Eb & Dc).
  destruct (base_version_match target_version) as [x|] eqn:T.
  - destruct (String.eqb_spec (url_version_base (major ++ "." ++ minor ++ "." ++ patch))
                (url_version_base target_version)) as [Eq|Ne].
    + rewrite Eq, String.eqb_refl. reflexivity.
    + destruct (String.eqb_spec
                  (url_version_base (major ++ "." ++ minor ++ "." ++ patch) ++ st ++ "1")
                  (url_version_base target_version ++ st ++ "1")) as [Eq|_]; auto.
      apply append_inv_tail in Eq. contradiction.
  - assert (W : url_version_base target_version = "vwip")
      by (unfold url_version_base; now rewrite T).
    rewrite W, Eb.
    destruct (String.eqb_spec (String "v" (String c r) ++ st ++ "1") "vwip") as [Eq|_].
    + now apply not_vwip in Eq.
    + destruct (String.eqb_spec (String "v" (String c r)) "vwip") as [Eq|_]; auto.
      rewrite <- (append_empty_r (String "v" (String c r))) in Eq.
      now apply not_vwip in Eq.
Qed.

(** Equal bases, in terms of the numbers: both majors are 0 and the minors
    are written alike, or the majors are one same number of 1 or more. *)
Lemma url_version_base_eq (major minor patch tmajor tminor tpatch : string) :
  word Str.is_digit major = true ->
  word Str.is_digit minor = true ->
  word Str.is_digit patch = true ->
  word Str.is_digit tmajor = true ->
  word Str.is_digit tminor = true ->
  word Str.is_digit tpatch = true ->
  url_version_base (major ++ "." ++ minor ++ "." ++ patch)
  = url_version_base (tmajor ++ "." ++ tminor ++ "." ++ tpatch)
  <-> (Str.int major = 0%N /\ Str.int tmajor = 0%N /\ minor = tminor)
      \/ ((1 <= Str.int major)%N /\ Str.int major = Str.int tmajor).
Proof.
  intros H1 H2 H3 H4 H5 H6. unfold url_version_base.
  rewrite !base_version_match_parts by auto.
  destruct (N.eqb_spec (Str.int major) 0) as [Z1|N1];
    destruct (N.eqb_spec (Str.int tmajor) 0) as [Z2|N2].
  - split.
    + intros [= E]. auto.
    + intros [(_ & _ & ->)|(L & _)]; [reflexivity | lia].
  - split.
    + intros [= E].
      pose proof (of_N_digits (Str.int tmajor)) as D. rewrite <- E in D.
      discriminate D.
    + intros [(_ & ? & _)|(L & _)]; [contradiction | lia].
  - split.
    + intros [= E].
      pose proof (of_N_digits (Str.int major)) as D. rewrite E in D.
      discriminate D.
    + intros [(? & _)|(_ & E)]; [contradiction | congruence].
  - split.
    + intros [= E]. apply of_N_inj in E. right. split; [lia | auto].
    + intros [(? & _)|(_ & ->)]; [contradiction | reflexivity].
Qed.

(** C1.  An existing pre-release version [major.minor.patch-status.ext]
    counts toward a target base version of the same status exactly when the
    two render to the same URL version base.  That base is [v0.{minor}]
    when the major number is 0 and [v{major}] when it is 1 or more, so the
    two collide iff both majors are 0 and the minors are written alike
    (whatever the patches), or the majors are one same number of 1 or more
    (whatever the minors and patches). *)
Theorem parse_extension_collision_namespace
  (major minor patch status ext tmajor tminor tpatch : string) :
  word Str.is_digit major = true ->
  word Str.is_digit minor = true ->
  word Str.is_digit patch = true ->
  word Str.is_lower status = true ->
  word Str.is_digit ext = true ->
  word Str.is_digit tmajor = true ->
  word Str.is_digit tminor = true ->
  word Str.is_digit tpatch = true ->
  let base := major ++ "." ++ minor ++ "." ++ patch in
  let existing := base ++ "-" ++ status ++ "." ++ ext in
  let target := tmajor ++ "." ++ tminor ++ "." ++ tpatch in
  url_version_base base
    = (if N.eqb (Str.int major) 0 then "v0." ++ minor
       else "v" ++ Str.of_N (Str.int major))
  /\ url_version_base target
    = (if N.eqb (Str.int tmajor) 0 then "v0." ++ tminor
       else "v" ++ Str.of_N (Str.int tmajor))
  /\ (_parse_extension existing target status = Some (Str.int ext)
      <-> url_version_base base = url_version_base target)
  /\ (_parse_extension existing target status = None
      <-> url_version_base base <> url_version_base target)
  /\ (url_version_base base = url_version_base target
      <-> (Str.int major = 0%N /\ Str.int tmajor = 0%N /\ minor = tminor)
          \/ ((1 <= Str.int major)%N /\ Str.int major = Str.int tmajor)).
Proof.
  intros H1 H2 H3 H4 H5 H6 H7 H8 base existing target.
  assert (P : _parse_extension existing target status
              = if String.eqb (url_version_base base) (url_version_base target)
                then Some (Str.int ext) else None).
  { rewrite parse_extension_spec. unfold existing, base.
    rewrite !append_assoc.
    rewrite VERSION_PATTERN_match_parts by auto.
    now rewrite String.eqb_refl. }
  split; [|split; [|split; [|split]]].
  - unfold url_version_base, base. now rewrite base_version_match_parts.
  - unfold url_version_base, target. now rewrite base_version_match_parts.
  - rewrite P. destruct (String.eqb_spec (url_version_base base) (url_version_base target));
      split; intros; congruence.
  - rewrite P. destruct (String.eqb_spec (url_version_base base) (url_version_base target));
      split; intros; congruence.
  - now apply url_version_base_eq.
Qed.

(** Existing [3.1.0-rc.5] collides with target [3.2.0] of status [rc];
    existing [0.4.0-alpha.1] collides with target [0.4.1] of status
    [alpha] and not with target [0.5.0]. *)
Lemma parse_extension_collision_namespace_witness :
  _parse_extension "3.1.0-rc.5" "3.2.0" "rc" = Some 5%N
  /\ _parse_extension "0.4.0-alpha.1" "0.4.1" "alpha" = Some 1%N
  /\ _parse_extension "0.4.0-alpha.1" "0.5.0" "alpha" = None.
Proof.
  split; [|split].
  - apply (parse_extension_collision_namespace "3" "1" "0" "rc" "5" "3" "2" "0");
      reflexivity.
  - apply (parse_extension_collision_namespace "0" "4" "0" "alpha" "1" "0" "4" "1");
      reflexivity.
  - apply (parse_extension_collision_namespace "0" "4" "0" "alpha" "1" "0" "5" "0");
      try reflexivity.
    vm_compute. discriminate.
Defined.

(** ** The version calculator *)

Section VersionCalculatorFacts.

Context {rt : PyRuntime}.
Import VersionCalculator.

Lemma run_read_release_metadata (gh : Repository) (tag : string) :
  run gh (_read_release_metadata tag) = release_metadata gh tag.
Proof.
  unfold _read_release_metadata, release_metadata, ask. simpl.
  destruct (gh _ (get_file_content "release-metadata.yaml" tag)) as [c|]; auto.
  destruct (Str.nonempty c); simpl; auto.
  destruct (safe_load c); reflexivity.
Qed.

(** The outcome of reading the metadata, by its defect. *)
Lemma release_metadata_defect (gh : Repository) (tag : string) :
  match metadata_defect gh tag with
  | Some Missing | Some Rejected => release_metadata gh tag = Returned PNone
  | Some (Crashing e) => release_metadata gh tag = Raised e
  | None => exists v, release_metadata gh tag = Returned v
  end.
Proof.
  unfold metadata_defect, release_metadata.
  destruct (gh _ (get_file_content "release-metadata.yaml" tag)) as [c|]; auto.
  destruct (Str.nonempty c); [|eauto].
  destruct (safe_load c); eauto.
Qed.

Lemma run_tolerated_metadata (gh : Repository) (tag : string) :
  tolerated_metadata gh tag = true ->
  run gh (_read_release_metadata tag) = Returned PNone.
Proof.
  unfold tolerated_metadata. rewrite run_read_release_metadata.
  pose proof (release_metadata_defect gh tag) as D.
  destruct (metadata_defect gh tag) as [[| |]|]; auto; discriminate.
Qed.

(** Where the parser raises something other than a [yaml.YAMLError] on
    the metadata, so does the reader. *)
Lemma run_crashing_metadata (gh : Repository) (tag : string) (e : exn) :
  metadata_defect gh tag = Some (Crashing e) ->
  run gh (_read_release_metadata tag) = Raised e.
Proof.
  intros C. rewrite run_read_release_metadata.
  pose proof (release_metadata_defect gh tag) as D. now rewrite C in D.
Qed.

(** The inner loop asks nothing of the repository. *)
Lemma run_scan_apis_any (gh gh' : Repository) (a tv ts : string)
  (apis : list pyval) (exts : list N) :
  run gh (scan_apis a tv ts apis exts) = run gh' (scan_apis a tv ts apis exts).
Proof.
  revert exts. induction apis as [|api apis IH]; intros exts; simpl; auto.
  destruct api; simpl; auto.
  destruct (negb (eq_str _ a)); auto.
  match goal with |- context [assoc "api_version" ?d] =>
    destruct (assoc "api_version" d) as [[]|] end; simpl; auto.
  destruct (_parse_extension _ tv ts); auto.
Qed.

Lemma run_scan_releases_cons (gh : Repository) (a tv ts : string)
  (r : Release) (rs : list Release) (exts : list N) :
  tolerated_metadata gh (tag_name r) = true ->
  run gh (scan_releases a tv ts (r :: rs) exts)
  = run gh (scan_releases a tv ts rs exts).
Proof.
  intros U. cbn [scan_releases].
  rewrite run_bind, (run_tolerated_metadata _ _ U). reflexivity.
Qed.

Lemma run_scan_releases_app (gh : Repository) (a tv ts : string)
  (rs1 rs2 : list Release) (exts : list N) :
  run gh (scan_releases a tv ts (rs1 ++ rs2)%list exts)
  = match run gh (scan_releases a tv ts rs1 exts) with
    | Returned exts' => run gh (scan_releases a tv ts rs2 exts')
    | Raised e => Raised e
    end.
Proof.
  revert exts. induction rs1 as [|r rs1 IH]; intros exts; [reflexivity|].
  cbn [scan_releases app]. rewrite !run_bind.
  destruct (run gh (_read_release_metadata (tag_name r))) as [metadata|e]; auto.
  destruct (negb (truthy metadata)); auto.
  rewrite !run_bind. destruct (run gh (py_get metadata "apis" (PList []))); auto.
  rewrite !run_bind. destruct (run gh (py_iter _)); auto.
  rewrite !run_bind. destruct (run gh (scan_apis _ _ _ _ _)); auto.
Qed.

Lemma run_scan_releases_any (gh gh' : Repository) (a tv ts : string)
  (rs : list Release) (exts : list N) :
  (forall path ref,
     gh _ (get_file_content path ref) = gh' _ (get_file_content path ref)) ->
  run gh (scan_releases a tv ts rs exts) = run gh' (scan_releases a tv ts rs exts).
Proof.
  intros F. revert exts. induction rs as [|r rs IH]; intros exts; [reflexivity|].
  cbn [scan_releases]. rewrite !run_bind, !run_read_release_metadata.
  unfold release_metadata. rewrite <- F.
  match goal with |- match ?m with _ => _ end = _ =>
    destruct m as [metadata|]; [|reflexivity] end.
  destruct (negb (truthy metadata)); auto.
  rewrite !run_bind.
  replace (run gh' (py_get metadata "apis" (PList [])))
    with (run gh (py_get metadata "apis" (PList [])))
    by (destruct metadata; reflexivity).
  destruct (run gh (py_get metadata "apis" (PList []))) as [apis|]; auto.
  rewrite !run_bind.
  replace (run gh' (py_iter apis)) with (run gh (py_iter apis))
    by (destruct apis; reflexivity).
  destruct (run gh (py_iter apis)) as [l|]; auto.
  rewrite !run_bind, (run_scan_apis_any gh gh').
  destruct (run gh' (scan_apis a tv ts l exts)); auto.
Qed.

Lemma run_scan_releases_tolerated (gh : Repository) (a tv ts : string)
  (rs : list Release) (exts : list N) :
  Forall (fun r => tolerated_metadata gh (tag_name r) = true) rs ->
  run gh (scan_releases a tv ts rs exts) = Returned exts.
Proof.
  induction 1 as [|r rs U _ IH]; auto.
  now rewrite run_scan_releases_cons.
Qed.

Lemma run_scan_apis_ok (gh : Repository) (a tv ts : string)
  (apis : list pyval) (exts : list N) :
  forallb (api_entry_ok a) apis = true ->
  run gh (scan_apis a tv ts apis exts)
  = Returned (exts ++ flat_map (contribution a tv ts) apis)%list.
Proof.
  revert exts. induction apis as [|api apis IH]; intros exts O.
  - simpl. now rewrite app_nil_r.
  - cbn [forallb] in O. apply andb_prop in O as [Oa O].
    cbn [scan_apis flat_map]. specialize (IH).
    destruct api as [| | | | |d]; try discriminate Oa.
    cbn [py_get bind run api_entry_ok contribution] in *.
    destruct (assoc "api_name" d) as [n|]; cbn [eq_str negb].
    + destruct (eq_str n a); cbn [negb]; [|now rewrite IH].
      destruct (assoc "api_version" d) as [[| | |v| |]|]; try discriminate Oa;
        cbn [parse_extension_of bind run].
      * destruct (_parse_extension v tv ts); rewrite IH by auto;
          now rewrite <- ?app_assoc.
      * replace (_parse_extension "" tv ts) with (@None N) by reflexivity.
        now rewrite IH.
    + now rewrite IH.
Qed.

(** On metadata of the expected shape the scan returns, with the
    contributions of the releases in the order of the listing. *)
Lemma run_scan_releases_ok (gh : Repository) (a tv ts : string)
  (rs : list Release) (exts : list N) :
  forallb (release_ok gh a) rs = true ->
  run gh (scan_releases a tv ts rs exts)
  = Returned (exts ++ flat_map (release_contribution gh a tv ts) rs)%list.
Proof.
  revert exts. induction rs as [|r rs IH]; intros exts O.
  - simpl. now rewrite app_nil_r.
  - cbn [forallb] in O. apply andb_prop in O as [Or O].
    cbn [scan_releases flat_map].
    rewrite run_bind, run_read_release_metadata.
    unfold release_ok, release_contribution, release_apis in *.
    destruct (release_metadata gh (tag_name r)) as [metadata|];
      [|discriminate Or].
    unfold metadata_apis in *.
    destruct (negb (truthy metadata)).
    + rewrite IH by auto. reflexivity.
    + destruct metadata as [| | | | |d]; try discriminate Or.
      cbn [py_get bind run].
      destruct (assoc "apis" d) as [[| | | |l|]|]; try discriminate Or.
      * cbn [py_iter bind run]. rewrite run_bind, run_scan_apis_ok by auto.
        rewrite IH by auto. now rewrite app_assoc.
      * cbn [py_iter bind run scan_apis flat_map]. now rewrite IH.
Qed.

Lemma list_max_spec (l : list N) :
  l <> [] ->
  In (list_max l) l /\ forall e, In e l -> (e <= list_max l)%N.
Proof.
  induction l as [|x l IH]; [congruence|]. intros _.
  destruct l as [|y l].
  - simpl. rewrite N.max_0_r. split; auto. intros e [<-|[]]. lia.
  - destruct IH as [I M]; [discriminate|].
    change (list_max (x :: y :: l)) with (N.max x (list_max (y :: l))).
    split.
    + destruct (N.max_spec x (list_max (y :: l))) as [[_ ->]|[_ ->]];
        [right; exact I | left; reflexivity].
    + intros e [<-|H]; [lia|]. specialize (M e H). lia.
Qed.

(** C6.  With target status [public], [calculate_version] is the identity
    on the base version: it returns it without asking anything of the
    repository, whatever the release history is. *)
Theorem calculate_version_public (api_name target_version : string) :
  calculate_version api_name target_version "public" = Ret target_version
  /\ forall gh : Repository,
       run gh (calculate_version api_name target_version "public")
       = Returned target_version.
Proof. split; reflexivity. Qed.

(** C5.  For a status other than [public], once the scan has collected
    the colliding extensions [existing], [calculate_version] returns
    [{base}-{status}.{n}], where [n] is 1 when nothing was collected and
    otherwise one more than the greatest collected extension: an extension
    [n - 1] was collected and every collected one is below [n]. *)
Theorem calculate_version_next_extension (gh : Repository)
  (api_name target_version target_status : string) (existing : list N) :
  target_status <> "public" ->
  run gh (find_existing_extensions api_name target_version target_status)
  = Returned existing ->
  let n := (list_max existing + 1)%N in
  run gh (calculate_version api_name target_version target_status)
  = Returned (target_version ++ "-" ++ target_status ++ "." ++ Str.of_N n)
  /\ (existing = [] -> n = 1%N)
  /\ (existing <> [] ->
      In (n - 1)%N existing /\ forall e, In e existing -> (e < n)%N).
Proof.
  intros NP F n. unfold calculate_version.
  destruct (String.eqb_spec target_status "public") as [|_]; [contradiction|].
  rewrite run_bind, F. split; [|split].
  - destruct existing; reflexivity.
  - intros ->. reflexivity.
  - intros NE. destruct (list_max_spec existing NE) as [I M].
    unfold n. rewrite N.add_sub. split; auto.
    intros e H. specialize (M e H). lia.
Qed.

(** What the scan provides for.  A published release whose metadata is
    missing or is rejected with a [yaml.YAMLError] is passed over: the scan
    gives what it gives on the listing without that release, be it a list
    of extensions or an exception raised for another release; and where
    every release is of that kind the scan returns the empty list. *)
Lemma find_existing_extensions_skips_tolerated (gh gh' : Repository)
  (api_name target_version target_status : string)
  (before after : list Release) (r : Release) :
  gh _ (get_releases false) = (before ++ r :: after)%list ->
  gh' _ (get_releases false) = (before ++ after)%list ->
  (forall path ref,
     gh _ (get_file_content path ref) = gh' _ (get_file_content path ref)) ->
  tolerated_metadata gh (tag_name r) = true ->
  run gh (find_existing_extensions api_name target_version target_status)
  = run gh' (find_existing_extensions api_name target_version target_status)
  /\ (Forall (fun r' => tolerated_metadata gh (tag_name r') = true)
        (before ++ after)%list ->
      run gh (find_existing_extensions api_name target_version target_status)
      = Returned []).
Proof.
  intros L L' F U. unfold find_existing_extensions, ask. simpl.
  rewrite L, L'.
  assert (E : forall exts,
             run gh (scan_releases api_name target_version target_status
                       (before ++ r :: after)%list exts)
             = run gh (scan_releases api_name target_version target_status
                         (before ++ after)%list exts)).
  { intros exts. rewrite !run_scan_releases_app.
    destruct (run gh (scan_releases _ _ _ before exts)); auto.
    now apply run_scan_releases_cons. }
  split.
  - rewrite E. now apply run_scan_releases_any.
  - intros A. rewrite E. now apply run_scan_releases_tolerated.
Qed.

(** What the scan does not provide for.  Where the scan of the releases
    listed before [r] returns and the parser raises [e], which is no
    [yaml.YAMLError], on the metadata of [r], the scan raises [e],
    whatever releases follow. *)
Lemma find_existing_extensions_crashes (gh : Repository)
  (api_name target_version target_status : string)
  (before after : list Release) (r : Release) (e : exn) (exts : list N) :
  gh _ (get_releases false) = (before ++ r :: after)%list ->
  run gh (scan_releases api_name target_version target_status before [])
  = Returned exts ->
  metadata_defect gh (tag_name r) = Some (Crashing e) ->
  run gh (find_existing_extensions api_name target_version target_status)
  = Raised e.
Proof.
  intros L B C. unfold find_existing_extensions, ask. simpl.
  rewrite L, run_scan_releases_app, B. cbn [scan_releases].
  now rewrite run_bind, (run_crashing_metadata _ _ _ C).
Qed.

End VersionCalculatorFacts.

(** Extensions 1 and 3 were released: the next one is 4. *)
Lemma calculate_version_next_extension_witness :
  run (Mock.client Mock.gaps)
    (VersionCalculator.calculate_version "test-api" "2.0.0" "rc")
  = Returned "2.0.0-rc.4".
Proof.
  apply (calculate_version_next_extension (Mock.client Mock.gaps)
           "test-api" "2.0.0" "rc" [1%N; 3%N]).
  - discriminate.
  - reflexivity.
Defined.

(** The release [r2.1], whose metadata is rejected with a
    [yaml.YAMLError], changes nothing. *)
Example find_existing_extensions_skips_rejected :
  run (Mock.client Mock.gaps_and_unreadable)
    (VersionCalculator.find_existing_extensions "test-api" "2.0.0" "rc")
  = Returned [1%N; 3%N].
Proof.
  refine (eq_trans
            (proj1 (find_existing_extensions_skips_tolerated
                      (Mock.client Mock.gaps_and_unreadable) (Mock.client Mock.gaps)
                      "test-api" "2.0.0" "rc"
                      [Mock.release "r3.0"] [Mock.release "r3.2"] (Mock.release "r2.1")
                      _ _ _ _))
            _); reflexivity.
Qed.

(** C7, which the code breaks.  The release [r3.1] of
    [Mock.impossible_date] is published and its metadata does not parse:
    the parser raises [ValueError] on the date, which the reader, catching
    [yaml.YAMLError] alone, lets through.  [find_existing_extensions]
    raises it, where the specification has the release passed over; on
    the listing without [r3.1] it returns the extensions 1 and 3. *)
Theorem find_existing_extensions_raises_on_unparseable :
  In (Mock.release "r3.1")
    (Mock.client Mock.impossible_date _ (get_releases false))
  /\ unreadable_metadata (Mock.client Mock.impossible_date) "r3.1" = true
  /\ run (Mock.client Mock.impossible_date)
       (VersionCalculator.find_existing_extensions "test-api" "2.0.0" "rc")
     = Raised ValueError
  /\ run (Mock.client Mock.gaps)
       (VersionCalculator.find_existing_extensions "test-api" "2.0.0" "rc")
     = Returned [1%N; 3%N].
Proof.
  split; [simpl; auto|]. split; [reflexivity|]. split; [|reflexivity].
  apply (find_existing_extensions_crashes (Mock.client Mock.impossible_date)
           "test-api" "2.0.0" "rc"
           [Mock.release "r3.0"] [Mock.release "r3.2"] (Mock.release "r3.1")
           ValueError [1%N]);
    reflexivity.
Qed.

(** ** The release state manager *)

Section StateManagerFacts.

Context {rt : PyRuntime}.
Import ReleaseStateManager.

Lemma leaves_always {R : Type} (P : R -> Prop) (p : Prog R) :
  (forall r, P r) -> leaves P p.
Proof. intros A. induction p; simpl; auto. Qed.

Lemma leaves_bind {A B : Type} (P : B -> Prop) (p : Prog A) (f : A -> Prog B) :
  leaves (fun a => leaves P (f a)) p -> leaves P (bind p f).
Proof. induction p; simpl; auto. Qed.

Lemma leaves_run {R : Type} (P : R -> Prop) (p : Prog R) (gh : Repository) (r : R) :
  leaves P p -> run gh p = Returned r -> P r.
Proof.
  induction p as [a|e|X q k IH]; simpl.
  - now intros H [= <-].
  - discriminate.
  - intros H. now apply IH.
Qed.

Lemma leaves_exec {W R : Type} (P : R -> Prop) (p : Prog R) (h : Handler W)
  (w w' : W) (r : R) :
  leaves P p -> exec h p w = (Returned r, w') -> P r.
Proof.
  revert w. induction p as [a|e|X q k IH]; simpl; intros w.
  - now intros H [= <- _].
  - discriminate.
  - intros H. destruct (h X q w) as [a w1]. now apply IH.
Qed.

(** One step through a program, towards its results. *)
Ltac leaf_step :=
  lazymatch goal with
  | |- leaves _ (bind _ _) => apply leaves_bind, leaves_always; intros
  | |- leaves _ (Vis _ _) => cbn [leaves]; intros
  | |- leaves _ (Ret _) => cbn [leaves]
  | |- leaves _ (match ?x with _ => _ end) => destruct x
  end.

Lemma exec_same_answers {W R : Type} (h : Handler W) (p : Prog R) (w1 w2 : W) :
  same_answers h p w1 w2 -> fst (exec h p w1) = fst (exec h p w2).
Proof.
  revert w1 w2. induction p as [a|e|X q k IH]; simpl; intros w1 w2; auto.
  destruct (h X q w1) as [a1 w1'], (h X q w2) as [a2 w2']; simpl.
  intros [<- S]. now apply IH.
Qed.

Lemma run_read_release_plan (gh : Repository) (ref : string) :
  run gh (_read_release_plan ref) = release_plan gh ref.
Proof.
  unfold _read_release_plan, release_plan, ask, config.RELEASE_PLAN_FILE. simpl.
  destruct (gh _ (get_file_content "release-plan.yaml" ref)) as [c|]; auto.
  destruct (Str.nonempty c); simpl; auto.
  destruct (safe_load c); reflexivity.
Qed.

Lemma run_read_snapshot_metadata (gh : Repository) (ref : string) :
  run gh (_read_release_metadata ref) = release_metadata gh ref.
Proof.
  unfold _read_release_metadata, release_metadata, ask,
    config.RELEASE_METADATA_FILE. simpl.
  destruct (gh _ (get_file_content "release-metadata.yaml" ref)) as [c|]; auto.
  destruct (Str.nonempty c); simpl; auto.
  destruct (safe_load c); reflexivity.
Qed.

(** C2.  Where the tag exists, [derive_state] returns [PUBLISHED] right
    after the tag query: no branch, draft release or release plan is even
    consulted, in a repository that may change at any time. *)
Theorem derive_state_published {W : Type} (h : Handler W) (release_tag : string)
  (w : W) :
  fst (h _ (tag_exists (PStr release_tag)) w) = true ->
  exec h (derive_state release_tag) w
  = (Returned PUBLISHED, snd (h _ (tag_exists (PStr release_tag)) w)).
Proof.
  intros T. unfold derive_state, ask. cbn [bind exec].
  destruct (h _ (tag_exists (PStr release_tag)) w) as [a w'].
  simpl in T. subst a. reflexivity.
Qed.

(** A program that touches no attribute runs on an object as it runs on
    the client alone, and leaves the attributes as they were. *)
Lemma exec_stateless {W R : Type} (h : Handler W) (p : Prog R)
  (self : Attributes) (w : W) :
  stateless p ->
  exec (with_attributes h) p (self, w)
  = (fst (exec h p w), (self, snd (exec h p w))).
Proof.
  revert self w. induction p as [a|e|X q k IH]; intros self w; [reflexivity..|].
  intros [Q S]. cbn [exec].
  destruct q; try discriminate Q; unfold with_attributes; cbn [fst snd];
    destruct (h _ _ w) as [a w']; now apply IH.
Qed.

Lemma stateless_bind {A B : Type} (p : Prog A) (f : A -> Prog B) :
  stateless p -> (forall a, stateless (f a)) -> stateless (bind p f).
Proof.
  intros P F. induction p as [a|e|X q k IH]; cbn [bind stateless]; auto.
  destruct P as [Q S]. split; auto.
Qed.

(** One step through a program, in search of an attribute. *)
Ltac stateless_step :=
  lazymatch goal with
  | |- stateless (bind _ _) => apply stateless_bind; [|intros]
  | |- stateless (Vis _ _) => split; [reflexivity | intros]
  | |- stateless (Ret _) => exact I
  | |- stateless (Raise _) => exact I
  | |- stateless (match ?x with _ => _ end) => destruct x
  | |- stateless (ask _) => unfold ask
  | |- stateless (py_get _ _ _) => unfold py_get
  | |- stateless (py_lower _) => unfold py_lower
  | |- stateless (type_is_set _) => unfold type_is_set
  | |- stateless (type_is_none _) => unfold type_is_none
  | |- stateless (_read_release_plan _) => unfold _read_release_plan
  end.

Lemma derive_state_stateless (release_tag : string) :
  stateless (derive_state release_tag).
Proof. unfold derive_state. repeat stateless_step. Qed.

(** C9.  [derive_state] neither reads nor assigns an attribute of the
    manager it is called on.  So two calls for one release tag, on
    managers whose attributes may differ (those the first call left, for
    one) and in repositories that answer every query of the call alike,
    end in the same state, and a call leaves the attributes as they
    were. *)
Theorem derive_state_deterministic {W : Type} (h : Handler W) (release_tag : string)
  (self1 self2 : Attributes) (w1 w2 : W) :
  same_answers h (derive_state release_tag) w1 w2 ->
  stateless (derive_state release_tag)
  /\ fst (exec (with_attributes h) (derive_state release_tag) (self1, w1))
     = fst (exec (with_attributes h) (derive_state release_tag) (self2, w2))
  /\ fst (snd (exec (with_attributes h) (derive_state release_tag) (self1, w1)))
     = self1.
Proof.
  intros S. pose proof (derive_state_stateless release_tag) as F.
  split; [exact F|].
  rewrite !(exec_stateless h _ _ _ F). cbn [fst snd].
  split; [now apply exec_same_answers | reflexivity].
Qed.

(** C3, as amended.  For a release without a tag, [derive_state] returns
    what [derive_state_amended] says, wherever that says something. *)
Theorem derive_state_unpublished (gh : Repository) (release_tag : string)
  (s : ReleaseState) :
  gh _ (tag_exists (PStr release_tag)) = false ->
  derive_state_amended gh release_tag = Some s ->
  run gh (derive_state release_tag) = Returned s.
Proof.
  intros T A. unfold derive_state, ask. cbn [bind run]. rewrite T. cbn [bind run].
  unfold derive_state_amended in A.
  destruct (gh _ (list_branches (config.SNAPSHOT_BRANCH_PREFIX ++ release_tag ++ "-*")))
    as [|b bs].
  2: { cbn [bind run]. injection A as <-.
       now destruct (gh _ (draft_release_exists (PStr release_tag))). }
  rewrite run_bind, run_read_release_plan. unfold release_plan.
  destruct (gh _ (get_file_content "release-plan.yaml" "main")) as [content|];
    [|now injection A as <-].
  destruct (Str.nonempty content); cbn [negb] in A; [|now injection A as <-].
  destruct (safe_load content) as [plan| |];
    [|now injection A as <- | discriminate A].
  destruct (truthy plan) eqn:TP; cbn [negb] in A; [|now injection A as <-].
  destruct plan as [| | | | |entries]; try discriminate A.
  cbn [py_get bind run].
  destruct (assoc "repository" entries) as [[| | | | |repository]|];
    try discriminate A; cbn [py_get bind run].
  - destruct (assoc "target_release_tag" repository) as [tag|]; cbn [eq_str].
    + destruct (eq_str tag release_tag); [|now injection A as <-].
      destruct (assoc "target_release_type" repository) as [type|];
        [|now injection A as <-].
      unfold type_is_set, type_is_none.
      destruct (truthy type); cbn [negb] in A; [|now injection A as <-].
      destruct type; try discriminate A. injection A as <-.
      cbn [py_lower bind run is_none_string].
      now destruct (String.eqb (Str.lower s0) "none").
    + now injection A as <-.
  - now injection A as <-.
Qed.

(** What [get_current_snapshot] provides for.  It returns [None] exactly
    when no branch matches; and where the first matching branch has
    metadata that is missing or is rejected with a [yaml.YAMLError], it
    returns a snapshot whose source commit is the SHA of the branch and
    whose release type, API list and two dependency releases are empty. *)
Lemma get_current_snapshot_degrades (gh : Repository) (release_tag : string) :
  (run gh (get_current_snapshot release_tag) = Returned None
   <-> gh _ (list_branches (config.SNAPSHOT_BRANCH_PREFIX ++ release_tag ++ "-*")) = [])
  /\ forall branch others,
       gh _ (list_branches (config.SNAPSHOT_BRANCH_PREFIX ++ release_tag ++ "-*"))
       = branch :: others ->
       tolerated_metadata gh (branch_name branch) = true ->
       exists info,
         run gh (get_current_snapshot release_tag) = Returned (Some info)
         /\ SnapshotInfo.snapshot_branch info = branch_name branch
         /\ SnapshotInfo.src_commit_sha info = PStr (sha branch)
         /\ SnapshotInfo.release_type info = PStr ""
         /\ SnapshotInfo.apis info = PList []
         /\ SnapshotInfo.commonalities_release info = PStr ""
         /\ SnapshotInfo.identity_consent_management_release info = PStr "".
Proof.
  unfold get_current_snapshot, ask. cbn [bind run].
  destruct (gh _ (list_branches (config.SNAPSHOT_BRANCH_PREFIX ++ release_tag ++ "-*")))
    as [|b bs].
  - split; [tauto | discriminate].
  - split.
    + split; [|discriminate]. intros H. exfalso.
      apply (leaves_run (fun r => r <> None)) in H; [congruence|].
      repeat leaf_step. discriminate.
    + intros branch others [= <- <-] U.
      rewrite run_bind, run_read_snapshot_metadata.
      assert (M : release_metadata gh (branch_name b) = Returned PNone).
      { unfold tolerated_metadata in U.
        pose proof (release_metadata_defect gh (branch_name b)) as D.
        destruct (metadata_defect gh (branch_name b)) as [[| |]|]; auto;
          discriminate. }
      rewrite M. cbn [truthy bind run].
      match goal with |- context [bind ?c _] =>
        assert (T : exists t, run gh c = Returned t) end.
      { destruct (gh _ (get_branch_creation_time (branch_name b))) as [str|];
          [|eexists; reflexivity].
        destruct (Str.nonempty str); [|eexists; reflexivity].
        destruct (fromisoformat _); eexists; reflexivity. }
      destruct T as [t T]. rewrite run_bind, T. cbn [bind run].
      eexists. split; [reflexivity|]. simpl. auto 10.
Qed.

(** What it does not provide for.  Where the parser raises [e], which is
    no [yaml.YAMLError], on the metadata of the first matching branch,
    [get_current_snapshot] raises [e]. *)
Lemma get_current_snapshot_crashes (gh : Repository) (release_tag : string)
  (branch : Branch) (others : list Branch) (e : exn) :
  gh _ (list_branches (config.SNAPSHOT_BRANCH_PREFIX ++ release_tag ++ "-*"))
  = branch :: others ->
  metadata_defect gh (branch_name branch) = Some (Crashing e) ->
  run gh (get_current_snapshot release_tag) = Raised e.
Proof.
  intros B C. unfold get_current_snapshot, ask. cbn [bind run].
  rewrite B, run_bind, run_read_snapshot_metadata.
  pose proof (release_metadata_defect gh (branch_name branch)) as D.
  rewrite C in D. now rewrite D.
Qed.

(** The validation asks for the plan and for nothing else; it returns,
    or it raises what the parser raised on the plan. *)
Lemma validation_one_query {W : Type} (h : Handler W) (ref : string) (w : W) :
  exists o,
    exec h (_read_release_plan_with_validation ref) w
    = (o, snd (h _ (get_file_content "release-plan.yaml" ref) w))
    /\ match o with
       | Returned _ => True
       | Raised e =>
           exists content,
             fst (h _ (get_file_content "release-plan.yaml" ref) w) = Some content
             /\ safe_load content = OtherError e
       end.
Proof.
  unfold _read_release_plan_with_validation, ask, config_failure,
    config.RELEASE_PLAN_FILE.
  cbn [bind exec].
  destruct (h _ (get_file_content "release-plan.yaml" ref) w) as [[content|] w'];
    cbn [fst snd]; [|eexists; split; [reflexivity | exact I]].
  destruct (safe_load content) as [plan|msg|e] eqn:P;
    [|eexists; split; [reflexivity | exact I]
     |eexists; split; [reflexivity | exists content; auto]].
  assert (Ok : forall (x : pyval * option ConfigurationError) (w0 : W),
             exists o,
               (Returned x, w0) = (o, w0)
               /\ match o with
                  | Returned _ => True
                  | Raised e =>
                      exists content0,
                        Some content = Some content0
                        /\ safe_load content0 = OtherError e
                  end)
    by (intros x w0; eexists; split; [reflexivity | exact I]).
  destruct plan as [| | | | |entries]; try apply Ok.
  cbn [is_dict negb py_get bind exec].
  destruct (match assoc "repository" entries with Some x => x | None => PNone end)
    as [|[|]|z|s|[|x l]|[|x repository]]; try apply Ok.
  - cbn [is_dict negb]. rewrite orb_true_r. apply Ok.
  - cbn [is_dict negb]. rewrite orb_true_r. apply Ok.
  - cbn [truthy is_dict negb orb py_get bind exec].
    destruct (negb (truthy _)); apply Ok.
Qed.

(** C4.  In any repository, changing or not: where the validation of the
    release plan returns an error, [get_current_release_info] returns that
    error with no state, in the world the plan was read in: nothing else
    was queried.  Where it returns none, every result of
    [get_current_release_info] has a state and no error.  Where it raises,
    on a plan on which the parser raises something other than a
    [yaml.YAMLError], [get_current_release_info] raises too and returns
    nothing.  So no result has both a state and a configuration error. *)
Theorem get_current_release_info_exclusive {W : Type} (h : Handler W) (w : W) :
  match exec h (_read_release_plan_with_validation "main") w with
  | (Returned (_, Some e), w') =>
      exec h get_current_release_info w
      = (Returned (ReleaseInfoResult.make false PNone None None None (Some e) None PNone),
         w')
      /\ w' = snd (h _ (get_file_content "release-plan.yaml" "main") w)
  | (Returned (_, None), _) =>
      forall r w'',
        exec h get_current_release_info w = (Returned r, w'') ->
        ReleaseInfoResult.success r = true
        /\ ReleaseInfoResult.config_error r = None
        /\ ReleaseInfoResult.state r <> None
  | (Raised e, w') =>
      exec h get_current_release_info w = (Raised e, w')
  end
  /\ forall r w'',
       exec h get_current_release_info w = (Returned r, w'') ->
       (ReleaseInfoResult.state r = None \/ ReleaseInfoResult.config_error r = None)
       /\ (ReleaseInfoResult.config_error r <> None ->
           ReleaseInfoResult.state r <> Some NOT_PLANNED).
Proof.
  assert (Q : leaves
                (fun r =>
                   (ReleaseInfoResult.success r = false
                    /\ ReleaseInfoResult.state r = None)
                   \/ (ReleaseInfoResult.success r = true
                       /\ ReleaseInfoResult.config_error r = None
                       /\ ReleaseInfoResult.state r <> None))
                get_current_release_info).
  { unfold get_current_release_info.
    repeat leaf_step; simpl; auto; right; repeat split; discriminate. }
  split.
  - destruct (validation_one_query h "main" w) as [[[plan err]|e] [V _]];
      rewrite V; unfold get_current_release_info; rewrite exec_bind, V;
      [|reflexivity].
    destruct err as [e|].
    + split; reflexivity.
    + intros r w'' H.
      match type of H with exec h ?p ?w1 = _ =>
        assert (L : leaves
                      (fun r => ReleaseInfoResult.success r = true
                                /\ ReleaseInfoResult.config_error r = None
                                /\ ReleaseInfoResult.state r <> None) p) end.
      { repeat leaf_step; simpl; repeat split; discriminate. }
      exact (leaves_exec _ _ _ _ _ _ L H).
  - intros r w'' H. apply (leaves_exec _ _ _ _ _ _ Q) in H.
    destruct H as [(_ & S)|(_ & C & S)].
    + split; auto. rewrite S. discriminate.
    + split; auto.
Qed.

Lemma run_validation_valid (gh : Repository) (tag : pyval) :
  planned_release_tag gh = Some tag ->
  exists entries repository,
    run gh (_read_release_plan_with_validation "main")
    = Returned (PDict entries, None)
    /\ assoc "repository" entries = Some (PDict repository)
    /\ assoc "target_release_tag" repository = Some tag.
Proof.
  unfold planned_release_tag, plan_document, _read_release_plan_with_validation,
    ask, config.RELEASE_PLAN_FILE.
  cbn [bind run].
  destruct (gh _ (get_file_content "release-plan.yaml" "main")) as [content|];
    try discriminate.
  destruct (safe_load content) as [plan| |]; try discriminate.
  destruct plan as [| | | | |entries]; try discriminate.
  destruct (assoc "repository" entries) as [[| | | | |repository]|] eqn:R;
    try discriminate.
  destruct (assoc "target_release_tag" repository) as [t|] eqn:T; try discriminate.
  destruct (truthy t) eqn:TT; intros [= <-].
  exists entries, repository.
  cbn [is_dict negb py_get bind run]. rewrite R.
  assert (N : truthy (PDict repository) = true)
    by (destruct repository; [discriminate T | reflexivity]).
  rewrite N. cbn [is_dict negb orb py_get bind run]. rewrite T, TT.
  cbn [negb]. auto.
Qed.

(** The four configuration errors, when the validation passes, and when
    it raises. *)
Lemma run_validation_cases (gh : Repository) :
  match run gh (_read_release_plan_with_validation "main") with
  | Returned (plan, None) => planned_release_tag gh <> None
  | Returned (plan, Some e) =>
      planned_release_tag gh = None
      /\ plan = PNone
      /\ file_path e = "release-plan.yaml"
      /\ In (error_type e, field_path e)
           [ ("missing_file", None);
             ("malformed_yaml", None);
             ("missing_field", Some "repository");
             ("missing_field", Some "repository.target_release_tag") ]
  | Raised e =>
      planned_release_tag gh = None
      /\ exists content,
           gh _ (get_file_content "release-plan.yaml" "main") = Some content
           /\ safe_load content = OtherError e
  end.
Proof.
  unfold planned_release_tag, plan_document, _read_release_plan_with_validation,
    ask, config_failure, config.RELEASE_PLAN_FILE.
  cbn [bind run].
  destruct (gh _ (get_file_content "release-plan.yaml" "main")) as [content|];
    [|simpl; auto 10].
  destruct (safe_load content) as [plan|msg|e] eqn:P;
    [|simpl; auto 10|simpl; eauto].
  destruct plan as [| | | | |entries]; try solve [simpl; auto 10].
  cbn [is_dict negb py_get bind run].
  destruct (assoc "repository" entries) as [[|[|]|z|s|[|x l]|[|x repository]]|];
    try solve [simpl; auto 10].
  - cbn [is_dict negb]. rewrite orb_true_r. simpl; auto 10.
  - cbn [is_dict negb]. rewrite orb_true_r. simpl; auto 10.
  - cbn [truthy is_dict negb orb py_get bind run].
    destruct (assoc "target_release_tag" (x :: repository)) as [tag|].
    + destruct (truthy tag); cbn [negb]; simpl; auto 10. discriminate.
    + simpl; auto 10.
Qed.

(** C10.  With a valid plan, no tag for the planned release and at least
    one snapshot branch, every result of [get_current_release_info] has
    [release_type] equal to [None], whatever the metadata of the branch
    says: no local variable is named [snapshot]. *)
Theorem snapshot_path_release_type (gh : Repository) (tag : pyval)
  (first : Branch) (others : list Branch) (r : ReleaseInfoResult.t) :
  planned_release_tag gh = Some tag ->
  gh _ (tag_exists tag) = false ->
  gh _ (list_branches (config.SNAPSHOT_BRANCH_PREFIX ++ format_value tag ++ "-*"))
  = first :: others ->
  run gh get_current_release_info = Returned r ->
  ReleaseInfoResult.release_type r = PNone
  /\ ReleaseInfoResult.snapshot_branch r = Some (branch_name first)
  /\ ReleaseInfoResult.source r = Some "release-metadata.yaml"
  /\ (forall plan plan_release_tag plan_release_type snapshot_branches
        snapshot_branch metadata metadata_release_tag snapshot_id state
        effective_tag,
        frame_lookup "snapshot"
          (snapshot_path_locals plan plan_release_tag plan_release_type
             snapshot_branches snapshot_branch metadata metadata_release_tag
             snapshot_id state effective_tag)
        = None).
Proof.
  intros V T B H.
  assert (F : forall plan plan_release_tag plan_release_type snapshot_branches
                snapshot_branch metadata metadata_release_tag snapshot_id state
                effective_tag,
             frame_lookup "snapshot"
               (snapshot_path_locals plan plan_release_tag plan_release_type
                  snapshot_branches snapshot_branch metadata metadata_release_tag
                  snapshot_id state effective_tag)
             = None).
  { intros. destruct snapshot_id; reflexivity. }
  destruct (run_validation_valid gh tag V) as (entries & repository & E & R & G).
  unfold get_current_release_info in H. rewrite run_bind, E in H.
  cbn [py_getitem py_get bind run] in H. rewrite R in H.
  cbn [py_getitem py_get bind run] in H. rewrite G in H.
  cbn [py_getitem py_get bind run ask] in H. rewrite T in H.
  cbn [bind run] in H. rewrite B in H.
  apply (leaves_run
           (fun r => ReleaseInfoResult.release_type r = PNone
                     /\ ReleaseInfoResult.snapshot_branch r = Some (branch_name first)
                     /\ ReleaseInfoResult.source r = Some "release-metadata.yaml"))
    in H; [tauto|].
  do 5 leaf_step.
  unfold snapshot_release_type. rewrite F. simpl. auto.
Qed.

End StateManagerFacts.

(** In a repository with the tag, a snapshot branch, a draft release and
    a plan, the state is [PUBLISHED] after one query. *)
Lemma derive_state_published_witness :
  exec (Mock.counting Mock.published) (ReleaseStateManager.derive_state "r4.1") 0
  = (Returned PUBLISHED, 1).
Proof.
  apply (derive_state_published (Mock.counting Mock.published) "r4.1" 0).
  reflexivity.
Defined.

(** A second call, on a manager that has an attribute the first had not
    and in the world the first call left, gives the state the first
    gave. *)
Lemma derive_state_deterministic_witness :
  fst (exec (with_attributes (Mock.counting Mock.planned))
         (ReleaseStateManager.derive_state "r4.1") ([], 0))
  = fst (exec (with_attributes (Mock.counting Mock.planned))
           (ReleaseStateManager.derive_state "r4.1")
           ([("last_state", PStr "published")], 3)).
Proof.
  apply (derive_state_deterministic (Mock.counting Mock.planned) "r4.1"
           [] [("last_state", PStr "published")] 0 3).
  simpl. auto.
Defined.

(** A method that kept something between calls would not do so: one that
    notes in an attribute that it was called and says whether it had been
    answers [false] to the first call and [true] to the second, on the
    manager the first call left, though no query is answered
    differently. *)
Example a_method_that_remembers :
  let p : @Prog Mock.runtime bool :=
    seen <- ask (get_attribute "seen") ;;
    ask (set_attribute "seen" (PBool true)) ;;;
    Ret (match seen with Some _ => true | None => false end) in
  let h := with_attributes (Mock.counting Mock.planned) in
  same_answers (Mock.counting Mock.planned) p 0 2
  /\ ~ stateless p
  /\ exec h p ([], 0) = (Returned false, ([("seen", PBool true)], 0))
  /\ exec h p ([("seen", PBool true)], 0)
     = (Returned true, ([("seen", PBool true); ("seen", PBool true)], 0)).
Proof.
  repeat split; try reflexivity. intros [Q _]. discriminate Q.
Qed.

(** C3 as stated fails: a plan that names [r4.1] with the empty string as
    its release type has a type that is present and is not [none], and the
    state is [NOT_PLANNED]. *)
Lemma derive_state_claimed_counterexample :
  Mock.client Mock.empty_type _ (tag_exists (PStr "r4.1")) = false
  /\ derive_state_claimed (Mock.client Mock.empty_type) "r4.1" = PLANNED
  /\ run (Mock.client Mock.empty_type) (ReleaseStateManager.derive_state "r4.1")
     = Returned NOT_PLANNED.
Proof. repeat split. Qed.

(** The plan names [r4.1] as a release candidate: [PLANNED]. *)
Lemma derive_state_unpublished_witness :
  run (Mock.client Mock.planned) (ReleaseStateManager.derive_state "r4.1")
  = Returned PLANNED.
Proof.
  apply (derive_state_unpublished (Mock.client Mock.planned) "r4.1" PLANNED);
    reflexivity.
Defined.

(** Where the amended statement is silent: a plan that is a sequence makes
    [derive_state] raise, on [plan.get]; a plan with a date that does not
    exist makes it raise what the parser raises. *)
Example derive_state_sequence_plan :
  run (Mock.client Mock.sequence_plan) (ReleaseStateManager.derive_state "r4.1")
  = Raised AttributeError
  /\ derive_state_amended (Mock.client Mock.sequence_plan) "r4.1" = None
  /\ run (Mock.client Mock.plan_impossible_date)
       (ReleaseStateManager.derive_state "r4.1")
     = Raised ValueError
  /\ derive_state_amended (Mock.client Mock.plan_impossible_date) "r4.1" = None.
Proof. repeat split; reflexivity. Qed.

(** The branch is there and its metadata is rejected with a
    [yaml.YAMLError]: the snapshot falls back to the SHA of the branch and
    to empty values. *)
Example get_current_snapshot_rejected :
  exists info,
    run (Mock.client Mock.snapshot_unreadable)
      (ReleaseStateManager.get_current_snapshot "r4.1")
    = Returned (Some info)
    /\ SnapshotInfo.snapshot_branch info = "release-snapshot/r4.1-abc1234"
    /\ SnapshotInfo.src_commit_sha info = PStr "abc1234def5678"
    /\ SnapshotInfo.release_type info = PStr ""
    /\ SnapshotInfo.apis info = PList []
    /\ SnapshotInfo.commonalities_release info = PStr ""
    /\ SnapshotInfo.identity_consent_management_release info = PStr "".
Proof.
  apply (proj2 (get_current_snapshot_degrades
                  (Mock.client Mock.snapshot_unreadable) "r4.1")
           Mock.snapshot_branch []);
    reflexivity.
Qed.

(** C8, which the code breaks.  The branch of [Mock.snapshot_impossible_date]
    matches and its metadata does not parse: the parser raises
    [ValueError] on the date, which the reader, catching [yaml.YAMLError]
    alone, lets through.  [get_current_snapshot] raises it, where the
    specification has it fall back to the SHA of the branch and to empty
    values. *)
Theorem get_current_snapshot_raises_on_unparseable :
  Mock.client Mock.snapshot_impossible_date _
    (list_branches (config.SNAPSHOT_BRANCH_PREFIX ++ "r4.1" ++ "-*"))
  = [Mock.snapshot_branch]
  /\ unreadable_metadata (Mock.client Mock.snapshot_impossible_date)
       (branch_name Mock.snapshot_branch)
     = true
  /\ run (Mock.client Mock.snapshot_impossible_date)
       (ReleaseStateManager.get_current_snapshot "r4.1")
     = Raised ValueError.
Proof.
  split; [reflexivity|]. split; [reflexivity|].
  apply (get_current_snapshot_crashes (Mock.client Mock.snapshot_impossible_date)
           "r4.1" Mock.snapshot_branch [] ValueError);
    reflexivity.
Qed.

(** The metadata of the snapshot branch names the release type
    [pre-release-rc], and the result has none. *)
Lemma snapshot_path_release_type_witness :
  run (Mock.client Mock.snapshot) ReleaseStateManager.get_current_release_info
  = Returned
      (ReleaseInfoResult.make true (PStr "r4.1") (Some SNAPSHOT_ACTIVE)
         (Some "release-snapshot/r4.1-abc1234") (Some "release-metadata.yaml")
         None None PNone)
  /\ ReleaseInfoResult.release_type
       (ReleaseInfoResult.make true (PStr "r4.1") (Some SNAPSHOT_ACTIVE)
          (Some "release-snapshot/r4.1-abc1234") (Some "release-metadata.yaml")
          None None PNone)
     = PNone.
Proof.
  split; [reflexivity|].
  apply (snapshot_path_release_type (Mock.client Mock.snapshot) (PStr "r4.1")
           Mock.snapshot_branch []);
    reflexivity.
Defined.

(** ** Scenarios *)

(** The life of release [r4.1]: planned, snapshot created, draft release
    prepared, tag pushed; and the plans that leave it unplanned. *)
Example derive_state_scenarios :
  map (fun m => run (Mock.client m) (ReleaseStateManager.derive_state "r4.1"))
    [ Mock.planned; Mock.snapshot; Mock.draft_ready; Mock.published;
      Mock.not_planned; Mock.malformed_plan; Mock.empty ]
  = map Returned
      [ PLANNED; SNAPSHOT_ACTIVE; DRAFT_READY; PUBLISHED;
        NOT_PLANNED; NOT_PLANNED; NOT_PLANNED ].
Proof. reflexivity. Qed.

(** A plan on which the parser raises [ValueError]: the validation raises
    it, and so does [get_current_release_info]. *)
Example get_current_release_info_raises :
  run (Mock.client Mock.plan_impossible_date)
    (ReleaseStateManager._read_release_plan_with_validation "main")
  = Raised ValueError
  /\ run (Mock.client Mock.plan_impossible_date)
       ReleaseStateManager.get_current_release_info
     = Raised ValueError.
Proof. split; reflexivity. Qed.

(** A missing plan, a plan that does not parse and a plan that is not a
    mapping are configuration errors, with no state. *)
Example get_current_release_info_errors :
  map (fun m =>
         match run (Mock.client m) ReleaseStateManager.get_current_release_info with
         | Returned r =>
             (ReleaseInfoResult.state r,
              option_map error_type (ReleaseInfoResult.config_error r))
         | Raised _ => (None, None)
         end)
    [ Mock.empty; Mock.malformed_plan; Mock.sequence_plan; Mock.not_planned ]
  = [ (None, Some "missing_file"); (None, Some "malformed_yaml");
      (None, Some "malformed_yaml"); (Some NOT_PLANNED, None) ].
Proof. reflexivity. Qed.

(** The scan of the releases of [Mock.gaps]. *)
Example find_existing_extensions_gaps :
  run (Mock.client Mock.gaps)
    (VersionCalculator.find_existing_extensions "test-api" "2.0.0" "rc")
  = Returned [1%N; 3%N]
  /\ run (Mock.client Mock.gaps)
       (VersionCalculator.find_existing_extensions "other-api" "2.0.0" "rc")
     = Returned []
  /\ run (Mock.client Mock.gaps)
       (VersionCalculator.calculate_version "test-api" "2.0.0" "alpha")
     = Returned "2.0.0-alpha.1".
Proof. repeat split; reflexivity. Qed.

(** What the scan prints: nothing for a release without metadata, one
    warning for a release whose metadata does not parse. *)
Example find_existing_extensions_output :
  exec (Mock.logging Mock.gaps_and_unreadable)
    (VersionCalculator.find_existing_extensions "test-api" "2.0.0" "rc") []
  = (Returned [1%N; 3%N],
     ["Warning: Failed to parse release-metadata.yaml from r2.1: could not parse the document"])
  /\ exec (Mock.logging Mock.gaps_and_unreadable)
       (VersionCalculator.scan_releases "test-api" "2.0.0" "rc" [Mock.release "r2.0"] []) []
     = (Returned [], []).
Proof. split; reflexivity. Qed.
